(** * Verification of the stock-processing fetch-and-decode engine

    A shallow embedding of the Python sources: the indexed-reference
    decoders of the financial-statement controllers, the rate-limited
    session manager, the per-data-type fetchers, the time-series entry
    conversion and the two orchestrators, followed by the properties the
    design document states about them. *)

From Stdlib Require Import ZArith List String Ascii Bool Lia Floats.
Import ListNotations.
Local Open Scope string_scope.
Local Open Scope Z_scope.
Set Warnings "-register-all,-inexact-float".

(** ** Python values as they come out of [response.json()] *)

(** A parsed JSON document.  Integers and floats are kept apart because
    Python does: only [int] (and [bool]) may index a list.  Objects are
    insertion-ordered dictionaries, kept as association lists. *)
Inductive json : Type :=
| JNull
| JBool (b : bool)
| JInt (z : Z)
| JFloat (f : float)
| JStr (s : string)
| JArr (items : list json)
| JObj (fields : list (string * json)).

Definition dict := list (string * json).

(** The exceptions the modelled code can raise.  [BaseException msg] is an
    explicit [raise BaseException('...')] of the source; [RequestError] is
    the [BaseException({'message': 'Request error.', 'status': ..,
    'reason': ..})] of the session manager; the others are raised by the
    Python runtime itself. *)
Inductive exn : Type :=
| BaseException (msg : string)
| RequestError (status : Z) (reason : string)
| AttributeError
| TypeError
| IndexError
| KeyError
| ValueError
| OverflowError.

Inductive result (A : Type) : Type :=
| Ok (a : A)
| Raise (e : exn).
Arguments Ok {A} a.
Arguments Raise {A} e.

Definition bind {A B} (r : result A) (k : A -> result B) : result B :=
  match r with
  | Ok a => k a
  | Raise e => Raise e
  end.

Notation "x <- e ;; k" := (bind e (fun x => k))
  (at level 61, e at next level, right associativity).
Notation "' p <- e ;; k" := (bind e (fun x => match x with p => k end))
  (at level 61, p pattern, e at next level, right associativity).

Definition fails {A} (r : result A) : Prop := exists e, r = Raise e.

Fixpoint mapM {A B} (f : A -> result B) (l : list A) : result (list B) :=
  match l with
  | [] => Ok []
  | a :: l' => b <- f a ;; bs <- mapM f l' ;; Ok (b :: bs)
  end.

(** *** Dictionaries *)

Fixpoint dict_get {V} (k : string) (d : list (string * V)) : option V :=
  match d with
  | [] => None
  | (k', v) :: d' => if String.eqb k k' then Some v else dict_get k d'
  end.

Definition dict_has {V} (k : string) (d : list (string * V)) : bool :=
  match dict_get k d with Some _ => true | None => false end.

(** [d[k] = v]: an existing key keeps its position, a new one goes last. *)
Fixpoint dict_set {V} (k : string) (v : V) (d : list (string * V))
  : list (string * V) :=
  match d with
  | [] => [(k, v)]
  | (k', v') :: d' =>
      if String.eqb k k' then (k, v) :: d' else (k', v') :: dict_set k v d'
  end.

Definition dict_of_items {V} (kvs : list (string * V)) : list (string * V) :=
  fold_left (fun d kv => dict_set (fst kv) (snd kv) d) kvs [].

(** [{key_expr: value_expr for x in xs}]: the pairs are evaluated in
    iteration order, the first exception aborts the comprehension. *)
Definition dict_comp {A V} (f : A -> result (string * V)) (xs : list A)
  : result (list (string * V)) :=
  kvs <- mapM f xs ;; Ok (dict_of_items kvs).

(** *** Truth value, [len], subscription, [.get], [.items], iteration *)

Definition truthy (v : json) : bool :=
  match v with
  | JNull => false
  | JBool b => b
  | JInt z => negb (z =? 0)
  | JFloat f => negb (PrimFloat.eqb f 0%float)
  | JStr s => negb (String.eqb s "")
  | JArr l => match l with [] => false | _ => true end
  | JObj d => match d with [] => false | _ => true end
  end.

Definition py_len (v : json) : result Z :=
  match v with
  | JStr s => Ok (Z.of_nat (String.length s))
  | JArr l => Ok (Z.of_nat (List.length l))
  | JObj d => Ok (Z.of_nat (List.length d))
  | _ => Raise TypeError
  end.

(** Python sequence subscription: a negative index counts from the end. *)
Definition seq_index {A} (l : list A) (z : Z) : result A :=
  let n := Z.of_nat (List.length l) in
  let z' := if z <? 0 then z + n else z in
  if (z' <? 0) || (n <=? z') then Raise IndexError
  else match nth_error l (Z.to_nat z') with
       | Some a => Ok a
       | None => Raise IndexError
       end.

(** [int] and its subclass [bool] are the only JSON values usable as a
    sequence index. *)
Definition index_of (i : json) : option Z :=
  match i with
  | JInt z => Some z
  | JBool b => Some (if b then 1 else 0)
  | _ => None
  end.

Definition py_getitem (c i : json) : result json :=
  match c with
  | JArr l =>
      match index_of i with
      | Some z => seq_index l z
      | None => Raise TypeError
      end
  | JStr s =>
      match index_of i with
      | Some z => ch <- seq_index (list_ascii_of_string s) z ;;
                  Ok (JStr (String ch ""))
      | None => Raise TypeError
      end
  | JObj d =>
      match i with
      | JStr k => match dict_get k d with
                  | Some v => Ok v
                  | None => Raise KeyError
                  end
      | JArr _ | JObj _ => Raise TypeError
      | _ => Raise KeyError
      end
  | _ => Raise TypeError
  end.

(** [o.get(k)]: only dictionaries have the method. *)
Definition py_get (o : json) (k : string) : result json :=
  match o with
  | JObj d => Ok (match dict_get k d with Some v => v | None => JNull end)
  | _ => Raise AttributeError
  end.

Definition py_items (o : json) : result (list (string * json)) :=
  match o with
  | JObj d => Ok d
  | _ => Raise AttributeError
  end.

Definition py_keys (o : json) : result (list string) :=
  match o with
  | JObj d => Ok (map fst d)
  | _ => Raise AttributeError
  end.

Definition py_iter (v : json) : result (list json) :=
  match v with
  | JArr l => Ok l
  | JStr s => Ok (map (fun c => JStr (String c "")) (list_ascii_of_string s))
  | JObj d => Ok (map (fun kv => JStr (fst kv)) d)
  | _ => Raise TypeError
  end.

(** [table.get(key, key)] on a static label table. *)
Fixpoint label_of (table : list (string * string)) (key : string) : string :=
  match table with
  | [] => key
  | (k, l) :: t => if String.eqb key k then l else label_of t key
  end.

(** ** The indexed-reference decoder

    [CashFlowDataController], [IncomeDataController] and
    [RatiosDataController] carry the same three methods, differing only in
    the label table; [RevenueDataController] reads the glossary under the
    key ['data'] and assembles its result differently. *)

Section IndexedReference.

Variable glossary_key : string.
Variable keys_to_labels : list (string * string).

(** [{table.get(key, key): value for key, value in entry.items()}] *)
Definition convert_keys_to_labels_with (entry : dict) : dict :=
  dict_of_items (map (fun kv => (label_of keys_to_labels (fst kv), snd kv)) entry).

Definition get_financial_data_indices_with (data : json) : result dict :=
  d0 <- py_getitem data (JInt 0) ;;
  financial_glossary_index <- py_get d0 glossary_key ;;
  match financial_glossary_index with
  | JNull =>
      Raise (BaseException ("No index for " ++ glossary_key ++ " was found."))
  | _ =>
      financial_glossary_object <- py_getitem data financial_glossary_index ;;
      if negb (truthy financial_glossary_object)
      then Raise (BaseException
                    ("No object existed at " ++ glossary_key ++ " index."))
      else
        items <- py_items financial_glossary_object ;;
        dict_comp (fun kv => v <- py_getitem data (snd kv) ;; Ok (fst kv, v))
                  items
  end.

(** The part of [extract_financial_data] every controller shares: from
    the response to the target node's [data] pool and the glossary. *)
Definition target_data (response_json : json) : result json :=
  nodes <- py_get response_json "nodes" ;;
  if negb (truthy nodes) then Raise (BaseException "Target node does not exist.")
  else
    n <- py_len nodes ;;
    if n <? 3 then Raise (BaseException "Target node does not exist.")
    else
      target_node <- py_getitem nodes (JInt 2) ;;
      data <- py_get target_node "data" ;;
      if negb (truthy data)
      then Raise (BaseException "No data was found in the target node.")
      else Ok data.

(** [key: [data[target_index] for target_index in indices]] *)
Definition resolve_indices (data : json) (kv : string * json)
  : result (string * json) :=
  indices <- py_iter (snd kv) ;;
  values <- mapM (py_getitem data) indices ;;
  Ok (fst kv, JArr values).

(** The [financial_data_indices is None] test of the source can never
    fire: [get_financial_data_indices] returns a dictionary or raises. *)
Definition extract_financial_data_with (response_json : json) : result json :=
  data <- target_data response_json ;;
  financial_data_indices <- get_financial_data_indices_with data ;;
  financial_data <- dict_comp (resolve_indices data) financial_data_indices ;;
  Ok (JArr [JObj (convert_keys_to_labels_with financial_data)]).

End IndexedReference.


(** ** [AsyncSessionManager]: the rate-limited client

    Source: [src/async_session_manager.py].

    The class keeps one shared [aiohttp.ClientSession] and a semaphore of
    two permits.  The world records what a caller can observe of it: whether
    a session is open, the free permits, how many GET requests were issued,
    and the chronological trace of the manager's actions. *)

Record response : Type := mk_response {
  status : Z;
  reason : string;
  retry_after : option string;   (* the [Retry-After] header, when present *)
  json_body : result json        (* what [await response.json()] gives *)
}.

(** The upstream server: the response to the [n]-th GET request, for its URL. *)
Definition network := nat -> string -> response.

Inductive event : Type :=
| Acquire
| Release
| NewSession
| Get (url : string)
| ClearCookies
| CloseSession
| Sleep (seconds : Z).

Record world : Type := mk_world {
  session_open : bool;
  permits : nat;
  requests : nat;
  trace : list event
}.

(** A coroutine run to its end from a world: it returns or raises
    ([Done]), or it is suspended on the semaphore with no permit left and
    nobody to release one ([Blocked]). *)
Inductive run (A : Type) : Type :=
| Done (r : result A) (w : world)
| Blocked (w : world).
Arguments Done {A} r w.
Arguments Blocked {A} w.

Definition M (A : Type) : Type := world -> run A.

Definition retM {A} (a : A) : M A := fun w => Done (Ok a) w.
Definition raiseM {A} (e : exn) : M A := fun w => Done (Raise e) w.
Definition liftM {A} (r : result A) : M A := fun w => Done r w.
Definition bindM {A B} (m : M A) (k : A -> M B) : M B :=
  fun w =>
    match m w with
    | Done (Ok a) w' => k a w'
    | Done (Raise e) w' => Done (Raise e) w'
    | Blocked w' => Blocked w'
    end.

Notation "x <~ e ;; k" := (bindM e (fun x => k))
  (at level 61, e at next level, right associativity).

Definition log (e : event) (w : world) : world :=
  mk_world (session_open w) (permits w) (requests w) (trace w ++ [e])%list.

Definition set_session (b : bool) (w : world) : world :=
  mk_world b (permits w) (requests w) (trace w).

Definition set_permits (n : nat) (w : world) : world :=
  mk_world (session_open w) n (requests w) (trace w).

Definition count_request (w : world) : world :=
  mk_world (session_open w) (permits w) (S (requests w)) (trace w).

(** [get_session]: a new session is created only when none is open. *)
Definition get_session (w : world) : world :=
  if session_open w then w else log NewSession (set_session true w).

(** [close_session]: closes and forgets the session, if there is one. *)
Definition close_session (w : world) : world :=
  if session_open w then log CloseSession (set_session false w) else w.

(** Leaving [async with cls._semaphore]. *)
Definition release (w : world) : world :=
  log Release (set_permits (S (permits w)) w).

(** *** [int(...)] on a header value *)

Definition is_space (c : ascii) : bool :=
  let n := nat_of_ascii c in
  ((9 <=? n) && (n <=? 13) || (28 <=? n) && (n <=? 32))%nat.

Fixpoint lstrip (s : list ascii) : list ascii :=
  match s with
  | c :: s' => if is_space c then lstrip s' else s
  | [] => []
  end.

Definition strip (s : list ascii) : list ascii := rev (lstrip (rev (lstrip s))).

Definition digit_of (c : ascii) : option Z :=
  let n := nat_of_ascii c in
  if ((48 <=? n) && (n <=? 57))%nat then Some (Z.of_nat (n - 48)) else None.

(** The digits after a first digit; a single underscore may separate two
    digits. *)
Fixpoint parse_digits (s : list ascii) (acc : Z) : option Z :=
  match s with
  | [] => Some acc
  | c :: s' =>
      if Ascii.eqb c "_" then
        match s' with
        | d :: s'' =>
            match digit_of d with
            | Some v => parse_digits s'' (10 * acc + v)
            | None => None
            end
        | [] => None
        end
      else
        match digit_of c with
        | Some v => parse_digits s' (10 * acc + v)
        | None => None
        end
  end.

Definition parse_unsigned (s : list ascii) : option Z :=
  match s with
  | d :: s' =>
      match digit_of d with
      | Some v => parse_digits s' v
      | None => None
      end
  | [] => None
  end.

(** [int(s)] for an ASCII string [s]; [None] stands for [ValueError]. *)
Definition int_of_string (s : string) : option Z :=
  match strip (list_ascii_of_string s) with
  | c :: r =>
      if Ascii.eqb c "+" then parse_unsigned r
      else if Ascii.eqb c "-" then option_map Z.opp (parse_unsigned r)
      else parse_unsigned (c :: r)
  | [] => None
  end.

(** [int(response.headers.get("Retry-After", 5))] *)
Definition retry_delay (r : response) : option Z :=
  match retry_after r with
  | None => Some 5
  | Some s => int_of_string s
  end.

(** *** [request_with_limit]

    [budget] bounds the depth of the recursion; the call is made with
    [1 - retries] of it, which the retry test [retries < 1] never
    exhausts. *)
Fixpoint request_with_limit_rec (net : network) (budget : nat) (url : string)
  (retries : Z) (w : world) : run json :=
  match permits w with
  | O => Blocked w
  | S free =>
      let w1 := get_session (log Acquire (set_permits free w)) in
      let response := net (requests w1) url in
      let w2 := log (Get url) (count_request w1) in
      if status response =? 200 then
        Done (json_body response) (release (log ClearCookies w2))
      else if (status response =? 429) && (retries <? 1) then
        match retry_delay response with
        | None => Done (Raise ValueError) (release w2)
        | Some seconds =>
            let w3 := log (Sleep seconds) (close_session (log ClearCookies w2)) in
            match budget with
            | O => Blocked w3
            | S budget' =>
                match request_with_limit_rec net budget' url (retries + 1) w3 with
                | Done r w4 => Done r (release w4)
                | Blocked w4 => Blocked w4
                end
            end
        end
      else
        Done (Raise (RequestError (status response) (reason response)))
             (release w2)
  end.

Definition request_with_limit (net : network) (url : string) (retries : Z)
  : M json :=
  request_with_limit_rec net (Z.to_nat (1 - retries)) url retries.

(** *** [str.replace] *)

Fixpoint replace_from (old new : string) (skip : nat) (s : string) : string :=
  match s with
  | EmptyString => EmptyString
  | String c s' =>
      match skip with
      | S k => replace_from old new k s'
      | O =>
          if String.prefix old s
          then new ++ replace_from old new (String.length old - 1) s'
          else String c (replace_from old new O s')
      end
  end.

Fixpoint intersperse (new s : string) : string :=
  match s with
  | EmptyString => new
  | String c s' => new ++ String c (intersperse new s')
  end.

Definition replace (old new s : string) : string :=
  if String.eqb old "" then intersperse new s else replace_from old new 0 s.

(** ** Values returned by the fetchers *)

(** The ['data'] entry of an envelope is a decoded JSON value or, where
    the source stores the variable [data] itself, the [asyncio.Task]
    created for the fetch (kept with the value awaiting it gave). *)
Inductive pyval : Type :=
| VJson (j : json)
| VTask (awaited : json).

(** What a [get_..._data] coroutine returns: the dictionary
    [{'data_type': .., 'data': ..}], or [None]. *)
Inductive fetched : Type :=
| Envelope (data_type : string) (data : pyval)
| ReturnedNone.

Definition is_empty_string (s : string) : bool := String.eqb s "".

(** [x in xs] for a list of strings. *)
Definition mem (x : string) (xs : list string) : bool :=
  existsb (String.eqb x) xs.

(** ** Time-series entries *)

(** What the interpreter and the machine supply: the UTC offset, in
    seconds, of the local time zone at an epoch second, and [float(s)] on a
    string. *)
Record platform : Type := mk_platform {
  utcoffset : Z -> Z;
  float_of_string : string -> result float
}.

(** [float(n)] for an [int]: round to nearest, ties to even;
    [OverflowError] beyond the largest double. *)
Definition py_float_of_int (z : Z) : result float :=
  match binary_normalize prec emax z 0 false with
  | S754_infinity _ => Raise OverflowError
  | sf => Ok (SF2Prim sf)
  end.

(** [float(x)] *)
Definition py_float (pf : platform) (x : json) : result float :=
  match x with
  | JInt z => py_float_of_int z
  | JBool b => Ok (if b then 1%float else 0%float)
  | JFloat f => Ok f
  | JStr s => float_of_string pf s
  | _ => Raise TypeError
  end.

(** [x / y] for a float [y] other than zero. *)
Definition py_truediv (x : json) (y : float) : result float :=
  match x with
  | JInt z => f <- py_float_of_int z ;; Ok (f / y)%float
  | JBool b => Ok ((if b then 1 else 0) / y)%float
  | JFloat f => Ok (f / y)%float
  | _ => Raise TypeError
  end.

(** [n / d] rounded to the nearest integer, ties to the even one. *)
Definition round_half_even (n d : Z) : Z :=
  let q := n / d in
  let r := n mod d in
  match 2 * r ?= d with
  | Lt => q
  | Gt => q + 1
  | Eq => if Z.even q then q else q + 1
  end.

(** [round(x)] of a float: an [int], ties to even; [ValueError] on NaN,
    [OverflowError] on an infinity. *)
Definition py_round (x : float) : result Z :=
  match Prim2SF x with
  | S754_nan => Raise ValueError
  | S754_infinity _ => Raise OverflowError
  | S754_zero _ => Ok 0
  | S754_finite s m e =>
      let n := if 0 <=? e then Z.pos m * 2 ^ e
               else round_half_even (Z.pos m) (2 ^ (- e)) in
      Ok (if s then - n else n)
  end.

(** The proleptic Gregorian date of a day number counted from
    1970-01-01. *)
Definition civil_from_days (days : Z) : Z * Z * Z :=
  let z := days + 719468 in
  let era := z / 146097 in
  let doe := z - era * 146097 in
  let yoe := (doe - doe / 1460 + doe / 36524 - doe / 146096) / 365 in
  let doy := doe - (365 * yoe + yoe / 4 - yoe / 100) in
  let mp := (5 * doy + 2) / 153 in
  let d := doy - (153 * mp + 2) / 5 + 1 in
  let m := if mp <? 10 then mp + 3 else mp - 9 in
  let y := yoe + era * 400 + (if m <=? 2 then 1 else 0) in
  (y, m, d).

(** The calendar date, in the local zone, of an epoch second. *)
Definition local_date (pf : platform) (t : Z) : Z * Z * Z :=
  civil_from_days ((t + utcoffset pf t) / 86400).

(** [datetime.fromtimestamp(t)], as far as its date goes: years outside
    1..9999 are refused. *)
Definition fromtimestamp (pf : platform) (t : Z) : result (Z * Z * Z) :=
  let '(y, m, d) := local_date pf t in
  if (y <? 1) || (9999 <? y) then Raise ValueError else Ok (y, m, d).

Definition digit_char (n : Z) : ascii := ascii_of_nat (48 + Z.to_nat (n mod 10)).

Definition pad2 (n : Z) : string :=
  String (digit_char (n / 10)) (String (digit_char n) "").

Definition pad4 (n : Z) : string :=
  String (digit_char (n / 1000)) (String (digit_char (n / 100)) (pad2 n)).

(** [strftime('%Y-%m-%d')].  The year is written with four digits; for
    years below 1000 the C libraries differ on the padding. *)
Definition strftime_ymd (date : Z * Z * Z) : string :=
  let '(y, m, d) := date in
  pad4 y ++ "-" ++ pad2 m ++ "-" ++ pad2 d.

(** Source: [stock_processing/src/controllers/data/time_series_data_controller.py]. *)
Module TimeSeriesDataController.

Definition base_url : string :=
  "https://api.stockanalysis.com/api/symbol/{asset_type}/{ticker}/history?type=chart".

Definition valid_asset_types : list string := ["s"; "e"].

Definition module_name : string := "src.controllers.data.time_series_data_controller".

Definition convert_time_series_entry (pf : platform) (entry : json) : result json :=
  items <- py_iter entry ;;
  match items with
  | [timestamp_ms; closing_price] =>
      x <- py_truediv timestamp_ms 1000%float ;;
      timestamp_s <- py_round x ;;
      date <- fromtimestamp pf timestamp_s ;;
      price <- py_float pf closing_price ;;
      Ok (JObj [("date", JStr (strftime_ymd date));
                ("closing_price", JFloat price)])
  | _ => Raise ValueError
  end.

Definition validate_ts_parameters (ticker asset_type : string) : result bool :=
  if is_empty_string ticker || is_empty_string asset_type
  then Raise (BaseException ("Invalid arguments for " ++ module_name))
  else if negb (mem asset_type valid_asset_types)
  then Raise (BaseException
                ("Asset type parameter value " ++ asset_type ++ " is not valid."))
  else Ok true.

Definition build_url_from_ticker (ticker asset_type : string) : result string :=
  if is_empty_string ticker || is_empty_string asset_type
  then Raise (BaseException ("Invalid arguments for " ++ module_name))
  else Ok (replace "{asset_type}" asset_type (replace "{ticker}" ticker base_url)).

Definition get_ts_data_from_url (net : network) (url : string) : M json :=
  response_json <~ request_with_limit net url 0 ;;
  liftM (py_get response_json "data").

(** [data = create_task(...)] starts nothing before the first [await data];
    later [await]s of the finished task give the same value. *)
Definition get_asset_ts_data (net : network) (pf : platform)
  (ticker asset_type : string) : M fetched :=
  valid <~ liftM (validate_ts_parameters ticker asset_type) ;;
  if negb valid then retM ReturnedNone
  else
    url <~ liftM (build_url_from_ticker ticker asset_type) ;;
    awaited <~ get_ts_data_from_url net url ;;
    if negb (truthy awaited)
    then retM (Envelope "time_series" (VTask awaited))
    else
      formatted_data <~ liftM (entries <- py_iter awaited ;;
                               mapM (convert_time_series_entry pf) entries) ;;
      retM (Envelope "time_series" (VJson (JArr formatted_data))).

End TimeSeriesDataController.

(** Source: [src/controllers/data/historical_data_controller.py]. *)
Module HistoricalDataController.

Definition base_url : string :=
  "https://api.stockanalysis.com/api/symbol/{asset_type}/{ticker}/history?range={range}&period={period}".

Definition valid_asset_types : list string := ["s"; "e"].

Definition valid_periods : list string :=
  ["Daily"; "Weekly"; "Monthly"; "Quarterly"; "Annual"].

Definition valid_ranges : list string :=
  ["3M"; "6M"; "YTD"; "1Y"; "5Y"; "10Y"; "Max"].

Definition json_to_label_map : list (string * string) :=
  [ ("t", "date");
    ("o", "opening_price");
    ("h", "high_price");
    ("l", "low_price");
    ("c", "closing_price");
    ("v", "volume");
    ("a", "adjusted_closing_price");
    ("ch", "price_change") ].

Definition module_name : string := "src.controllers.data.historical_data_controller".

Definition validate_historical_parameters (ticker asset_type range period : string)
  : result bool :=
  if is_empty_string ticker || is_empty_string asset_type
     || is_empty_string range || is_empty_string period
  then Raise (BaseException ("Invalid arguments for " ++ module_name))
  else if negb (mem asset_type valid_asset_types)
  then Raise (BaseException
                ("Asset type parameter value " ++ asset_type ++ " is not valid."))
  else if negb (mem range valid_ranges)
  then Raise (BaseException ("Range parameter value " ++ range ++ " is not valid."))
  else if negb (mem period valid_periods)
  then Raise (BaseException ("Period parameter value " ++ period ++ " is not valid."))
  else Ok true.

(** [raise f'...'] raises a [str], which the interpreter turns into a
    [TypeError]. *)
Definition build_url_from_ticker (ticker asset_type range period : string)
  : result string :=
  if is_empty_string ticker || is_empty_string asset_type
     || is_empty_string range || is_empty_string period
  then Raise TypeError
  else Ok (replace "{period}" period
             (replace "{range}" range
                (replace "{asset_type}" asset_type
                   (replace "{ticker}" ticker base_url)))).

Definition convert_keys_to_labels (entry : json) : result json :=
  items <- py_items entry ;;
  Ok (JObj (dict_of_items
              (map (fun kv => (label_of json_to_label_map (fst kv), snd kv)) items))).

Definition get_historical_data_from_url (net : network) (url : string) : M json :=
  response_json <~ request_with_limit net url 0 ;;
  liftM (json_data <- py_get response_json "data" ;;
         if negb (truthy json_data) then Ok json_data
         else py_get json_data "data").

Definition get_asset_historical_data (net : network)
  (ticker asset_type range period : string) : M fetched :=
  valid <~ liftM (validate_historical_parameters ticker asset_type range period) ;;
  if negb valid
  then raiseM (BaseException "Invalid historical parameters for asset data.")
  else
    url <~ liftM (build_url_from_ticker ticker asset_type range period) ;;
    awaited <~ get_historical_data_from_url net url ;;
    if negb (truthy awaited)
    then retM (Envelope "historical" (VTask awaited))
    else
      formatted_data <~ liftM (entries <- py_iter awaited ;;
                               mapM convert_keys_to_labels entries) ;;
      retM (Envelope "historical" (VJson (JArr formatted_data))).

End HistoricalDataController.

(** Source: [src/controllers/data/quote_data_controller.py]. *)
Module QuoteDataController.

Definition base_url : string :=
  "https://api.stockanalysis.com/api/quotes/{asset_type}/{ticker}".

Definition valid_asset_types : list string := ["s"; "e"].

Definition stock_quote_data_keys_to_labels : list (string * string) :=
  [ ("c", "price_change");
    ("cdr", "change_direction");
    ("cl", "closing_price");
    ("cp", "percent_change");
    ("days", "days_traded");
    ("e", "is_extended_hours");
    ("ec", "extended_hours_change");
    ("ecp", "extended_hours_percent_change");
    ("ep", "extended_hours_price");
    ("epd", "extended_hours_previous_day_price");
    ("es", "extended_hours_status");
    ("ets", "extended_hours_timestamp");
    ("eu", "extended_hours_update_time");
    ("ex", "exchange");
    ("exp", "extended_hours_price_expiration");
    ("h", "high_price");
    ("h52", "fifty_two_week_high");
    ("l", "low_price");
    ("l52", "fifty_two_week_low");
    ("ms", "market_status");
    ("o", "open_price");
    ("p", "current_price");
    ("pd", "previous_close_price");
    ("symbol", "ticker_symbol");
    ("td", "trading_date");
    ("ts", "timestamp");
    ("u", "last_update_time");
    ("uid", "unique_id");
    ("v", "volume") ].

Definition etf_quote_data_keys_to_labels : list (string * string) :=
  [ ("c", "price_change");
    ("cdr", "change_direction");
    ("cl", "closing_price");
    ("cp", "percent_change");
    ("days", "days_traded");
    ("e", "is_extended_hours");
    ("ec", "extended_hours_change");
    ("ecp", "extended_hours_percent_change");
    ("ep", "extended_hours_price");
    ("epd", "extended_hours_previous_day_price");
    ("es", "extended_hours_status");
    ("ets", "extended_hours_timestamp");
    ("eu", "extended_hours_update_time");
    ("ex", "exchange");
    ("exp", "extended_hours_price_expiration");
    ("h", "high_price");
    ("h52", "fifty_two_week_high");
    ("l", "low_price");
    ("l52", "fifty_two_week_low");
    ("ms", "market_status");
    ("o", "open_price");
    ("p", "current_price");
    ("pd", "previous_close_price");
    ("symbol", "ticker_symbol");
    ("td", "trading_date");
    ("ts", "timestamp");
    ("u", "last_update_time");
    ("uid", "unique_id");
    ("v", "volume") ].

Definition build_url_from_ticker (ticker asset_type : string) : result string :=
  if is_empty_string ticker || is_empty_string asset_type
  then Raise TypeError
  else Ok (replace "{asset_type}" asset_type (replace "{ticker}" ticker base_url)).

Definition relabel (table : list (string * string)) (entry : json) : result json :=
  items <- py_items entry ;;
  Ok (JObj (dict_of_items (map (fun kv => (label_of table (fst kv), snd kv)) items))).

(** Falls off the end, returning [None], for any other asset type. *)
Definition convert_keys_to_labels (entry : json) (asset_type : string)
  : result (option json) :=
  if String.eqb asset_type "e"
  then r <- relabel etf_quote_data_keys_to_labels entry ;; Ok (Some r)
  else if String.eqb asset_type "s"
  then r <- relabel stock_quote_data_keys_to_labels entry ;; Ok (Some r)
  else Ok None.

Definition get_quote_data_from_url (net : network) (url : string) : M json :=
  response_json <~ request_with_limit net url 0 ;;
  liftM (py_get response_json "data").

Definition get_asset_quote_data (net : network) (ticker asset_type : string)
  : M fetched :=
  if negb (mem asset_type valid_asset_types)
  then raiseM (BaseException ("Asset type: " ++ asset_type ++ " - is not valid."))
  else
    url <~ liftM (build_url_from_ticker ticker asset_type) ;;
    awaited <~ get_quote_data_from_url net url ;;
    if negb (truthy awaited)
    then retM (Envelope "quote" (VTask awaited))
    else
      formatted_data <~ liftM (convert_keys_to_labels awaited asset_type) ;;
      match formatted_data with
      | Some d => retM (Envelope "quote" (VJson d))
      | None => raiseM TypeError
      end.

End QuoteDataController.

(** *** The three statement controllers *)

(** Source: [stock_processing/src/controllers/data/stocks/financials/cash_flow_data_controller.py]. *)
Module CashFlowDataController.

Definition cash_flow_keys_to_labels : list (string * string) :=
  [ ("datekey", "date_of_financial_data");
    ("fiscalYear", "fiscal_year");
    ("fiscalQuarter", "fiscal_quarter");
    ("netIncomeCF", "net_income_operating_cash_flow_basis");
    ("totalDepAmorCF", "total_depreciation_amortization");
    ("sbcomp", "stock_based_compensation");
    ("changeAR", "change_in_accounts_receivable");
    ("changeInventory", "change_in_inventory");
    ("changeAP", "change_in_accounts_payable");
    ("changeUnearnedRev", "change_in_unearned_revenue");
    ("changeOtherNetOperAssets", "change_in_other_net_operating_assets");
    ("otheroperating", "other_operating_cash_flow_items");
    ("ncfo", "net_cash_from_operating_activities");
    ("ocfGrowth", "operating_cash_flow_growth");
    ("capex", "capital_expenditures");
    ("cashAcquisition", "cash_used_for_acquisitions");
    ("salePurchaseIntangibles", "sale_purchase_of_intangibles");
    ("investInSecurities", "investment_in_securities");
    ("otherinvesting", "other_investing_cash_flow_items");
    ("ncfi", "net_cash_from_investing_activities");
    ("debtIssuedShortTerm", "short_term_debt_issued");
    ("debtIssuedLongTerm", "long_term_debt_issued");
    ("debtIssuedTotal", "total_debt_issued");
    ("debtRepaidShortTerm", "short_term_debt_repaid");
    ("debtRepaidLongTerm", "long_term_debt_repaid");
    ("debtRepaidTotal", "total_debt_repaid");
    ("netDebtIssued", "net_debt_issued");
    ("commonIssued", "common_stock_issued");
    ("commonRepurchased", "common_stock_repurchased");
    ("commonDividendCF", "common_dividend_cash_flow");
    ("otherfinancing", "other_financing_cash_flow_items");
    ("ncff", "net_cash_from_financing_activities");
    ("ncf", "net_cash_flow");
    ("fcf", "free_cash_flow");
    ("fcfGrowth", "free_cash_flow_growth");
    ("fcfMargin", "free_cash_flow_margin");
    ("fcfps", "free_cash_flow_per_share");
    ("leveredFCF", "levered_free_cash_flow");
    ("unleveredFCF", "unlevered_free_cash_flow");
    ("cashInterestPaid", "cash_interest_paid");
    ("cashTaxesPaid", "cash_taxes_paid");
    ("changeNetWorkingCapital", "change_in_net_working_capital") ].

Definition convert_keys_to_labels : dict -> dict :=
  convert_keys_to_labels_with cash_flow_keys_to_labels.

Definition get_financial_data_indices : json -> result dict :=
  get_financial_data_indices_with "financialData".

Definition extract_financial_data : json -> result json :=
  extract_financial_data_with "financialData" cash_flow_keys_to_labels.

Definition cash_flow_base_url : string :=
  "https://stockanalysis.com/stocks/{ticker}/financials/cash-flow-statement/__data.json?x-sveltekit-trailing-slash=1&x-sveltekit-invalidated=001".

Definition build_cash_flow_url (ticker : string) : string :=
  replace "{ticker}" ticker cash_flow_base_url.

(** [raise f'No json for cash_flow data.'] raises a [str]: a [TypeError]. *)
Definition fetch_cash_flow_data (net : network) (url : string) : M json :=
  response_json <~ request_with_limit net url 0 ;;
  if negb (truthy response_json) then raiseM TypeError
  else liftM (extract_financial_data response_json).

(** The task object [data] is always true, so the [else] branch of
    [if data:] is never taken. *)
Definition get_cash_flow_data (net : network) (stock_ticker : string) : M fetched :=
  if is_empty_string stock_ticker
  then raiseM (BaseException "No stock ticker provided for cash flow data.")
  else
    awaited <~ fetch_cash_flow_data net (build_cash_flow_url stock_ticker) ;;
    retM (Envelope "cash_flow" (VJson awaited)).

End CashFlowDataController.

(** Source: [stock_processing/src/controllers/data/stocks/financials/income_data_controller.py]. *)
Module IncomeDataController.

Definition income_data_keys_to_labels : list (string * string) :=
  [ ("datekey", "date_of_financial_data");
    ("fiscalYear", "fiscal_year");
    ("fiscalQuarter", "fiscal_quarter");
    ("revenue", "total_revenue");
    ("revenueGrowth", "revenue_growth");
    ("cor", "cost_of_revenue");
    ("gp", "gross_profit");
    ("sgna", "selling_general_and_administrative_expenses");
    ("rnd", "research_and_development_expenses");
    ("opex", "total_operating_expenses");
    ("opinc", "operating_income");
    ("interestExpense", "interest_expense");
    ("interestIncome", "interest_income");
    ("currencyGains", "currency_exchange_gains");
    ("otherNonOperating", "other_non_operating_income");
    ("ebtExcl", "earnings_before_tax_excluding_non_recurring_items");
    ("gainInvestments", "gain_on_investments");
    ("mergerRestructureCharges", "merger_and_restructuring_charges");
    ("otherUnusualItems", "other_unusual_items");
    ("pretax", "pretax_income");
    ("taxexp", "tax_expense");
    ("netinc", "net_income");
    ("netinccmn", "net_income_common_stockholders");
    ("netIncomeGrowth", "net_income_growth");
    ("sharesBasic", "basic_shares_outstanding");
    ("sharesDiluted", "diluted_shares_outstanding");
    ("sharesYoY", "year_over_year_shares_growth");
    ("epsBasic", "basic_earnings_per_share");
    ("epsdil", "diluted_earnings_per_share");
    ("epsGrowth", "earnings_per_share_growth");
    ("fcf", "free_cash_flow");
    ("fcfps", "free_cash_flow_per_share");
    ("dps", "dividends_per_share");
    ("dividendGrowth", "dividend_growth");
    ("grossMargin", "gross_margin");
    ("operatingMargin", "operating_margin");
    ("profitMargin", "net_profit_margin");
    ("fcfMargin", "free_cash_flow_margin");
    ("taxrate", "effective_tax_rate");
    ("ebitda", "earnings_before_interest_taxes_depreciation_amortization");
    ("depAmorEbitda", "depreciation_and_amortization_in_ebitda");
    ("ebitdaMargin", "ebitda_margin");
    ("ebit", "earnings_before_interest_and_taxes");
    ("ebitMargin", "ebit_margin");
    ("legalSettlements", "legal_settlements");
    ("payoutratio", "dividend_payout_ratio") ].

Definition convert_keys_to_labels : dict -> dict :=
  convert_keys_to_labels_with income_data_keys_to_labels.

Definition get_financial_data_indices : json -> result dict :=
  get_financial_data_indices_with "financialData".

Definition extract_financial_data : json -> result json :=
  extract_financial_data_with "financialData" income_data_keys_to_labels.

Definition financial_income_base_url : string :=
  "https://stockanalysis.com/stocks/{ticker}/financials/__data.json?p={period}&x-sveltekit-trailing-slash=1&x-sveltekit-invalidated=001".

Definition build_income_url (ticker period : string) : string :=
  replace "{period}" period (replace "{ticker}" ticker financial_income_base_url).

Definition fetch_income_data (net : network) (url : string) : M json :=
  response_json <~ request_with_limit net url 0 ;;
  if negb (truthy response_json) then raiseM TypeError
  else liftM (extract_financial_data response_json).

(** An empty ticker is reported with [print] and answered with [None]. *)
Definition get_income_data (net : network) (stock_ticker period : string)
  : M fetched :=
  if is_empty_string stock_ticker then retM ReturnedNone
  else
    awaited <~ fetch_income_data net (build_income_url stock_ticker period) ;;
    retM (Envelope "income" (VJson awaited)).

End IncomeDataController.

(** Source: [stock_processing/src/controllers/data/stocks/financials/ratios_data_controller.py]. *)
Module RatiosDataController.

Definition financial_ratios_keys_to_labels : list (string * string) :=
  [ ("datekey", "date_of_financial_data");
    ("fiscalYear", "fiscal_year");
    ("fiscalQuarter", "fiscal_quarter");
    ("marketcap", "market_cap");
    ("marketCapGrowth", "market_cap_growth");
    ("ev", "enterprise_value");
    ("lastCloseRatios", "last_close_ratios");
    ("pe", "price_to_earnings_ratio");
    ("ps", "price_to_sales_ratio");
    ("pb", "price_to_book_ratio");
    ("pfcf", "price_to_free_cash_flow_ratio");
    ("pocf", "price_to_operating_cash_flow_ratio");
    ("evrevenue", "enterprise_value_to_revenue");
    ("evebitda", "enterprise_value_to_ebitda");
    ("evebit", "enterprise_value_to_ebit");
    ("evfcf", "enterprise_value_to_free_cash_flow");
    ("debtequity", "debt_to_equity_ratio");
    ("debtebitda", "debt_to_ebitda_ratio");
    ("debtfcf", "debt_to_free_cash_flow_ratio");
    ("assetturnover", "asset_turnover_ratio");
    ("inventoryTurnover", "inventory_turnover_ratio");
    ("quickRatio", "quick_ratio");
    ("currentratio", "current_ratio");
    ("roe", "return_on_equity");
    ("roa", "return_on_assets");
    ("roic", "return_on_invested_capital");
    ("earningsyield", "earnings_yield");
    ("fcfyield", "free_cash_flow_yield");
    ("dividendyield", "dividend_yield");
    ("payoutratio", "payout_ratio");
    ("buybackyield", "buyback_yield");
    ("totalreturn", "total_return") ].

Definition convert_keys_to_labels : dict -> dict :=
  convert_keys_to_labels_with financial_ratios_keys_to_labels.

Definition get_financial_data_indices : json -> result dict :=
  get_financial_data_indices_with "financialData".

Definition extract_financial_data : json -> result json :=
  extract_financial_data_with "financialData" financial_ratios_keys_to_labels.

Definition financial_ratio_base_url : string :=
  "https://stockanalysis.com/stocks/{ticker}/financials/ratios/__data.json?x-sveltekit-trailing-slash=1&x-sveltekit-invalidated=001".

Definition build_ratios_url (ticker : string) : string :=
  replace "{ticker}" ticker financial_ratio_base_url.

Definition fetch_ratios_data (net : network) (url : string) : M json :=
  response_json <~ request_with_limit net url 0 ;;
  if negb (truthy response_json) then raiseM TypeError
  else liftM (extract_financial_data response_json).

(** An empty ticker is reported with [print] and answered with [None]. *)
Definition get_ratios_data (net : network) (stock_ticker : string) : M fetched :=
  if is_empty_string stock_ticker then retM ReturnedNone
  else
    awaited <~ fetch_ratios_data net (build_ratios_url stock_ticker) ;;
    retM (Envelope "ratios" (VJson awaited)).

End RatiosDataController.

(** *** The revenue controller *)

(** Source: [stock_processing/src/controllers/data/stocks/statistics/revenue_data_controller.py]. *)
Module RevenueDataController.

Definition get_financial_data_indices : json -> result dict :=
  get_financial_data_indices_with "data".

(** One [item] of the inner comprehension: the filter
    ['limited' not in item.keys()] runs first, and only a record that
    passes has its fields resolved,
    [{dict_key: data[target_index] for dict_key, target_index in item.items()}]. *)
Definition resolve_record (data item : json) : result (option json) :=
  keys <- py_keys item ;;
  if existsb (String.eqb "limited") keys then Ok None
  else
    fields <- py_items item ;;
    record <- dict_comp (fun kv => v <- py_getitem data (snd kv) ;; Ok (fst kv, v))
                        fields ;;
    Ok (Some (JObj record)).

Fixpoint somes {A} (l : list (option A)) : list A :=
  match l with
  | [] => []
  | Some a :: l' => a :: somes l'
  | None :: l' => somes l'
  end.

Definition resolve_records (data : json) (kv : string * json)
  : result (string * json) :=
  indices <- py_iter (snd kv) ;;
  items <- mapM (py_getitem data) indices ;;
  records <- mapM (resolve_record data) items ;;
  Ok (fst kv, JArr (somes records)).

(** Returns the assembled dictionary itself: no relabelling (the class
    defines no [revenue_keys_to_labels]) and no enclosing list. *)
Definition extract_financial_data (response_json : json) : result json :=
  data <- target_data response_json ;;
  financial_data_indices <- get_financial_data_indices data ;;
  financial_data <- dict_comp (resolve_records data) financial_data_indices ;;
  Ok (JObj financial_data).

Definition revenue_base_url : string :=
  "https://stockanalysis.com/stocks/{ticker}/revenue/__data.json?x-sveltekit-trailing-slash=1&x-sveltekit-invalidated=001".

Definition build_revenue_url (ticker : string) : string :=
  replace "{ticker}" ticker revenue_base_url.

Definition fetch_revenue_data (net : network) (url : string) : M json :=
  response_json <~ request_with_limit net url 0 ;;
  if negb (truthy response_json) then raiseM TypeError
  else liftM (extract_financial_data response_json).

Definition get_revenue_data (net : network) (stock_ticker : string) : M fetched :=
  if is_empty_string stock_ticker
  then raiseM (BaseException "No stock ticker provided for cash flow data.")
  else
    awaited <~ fetch_revenue_data net (build_revenue_url stock_ticker) ;;
    retM (Envelope "revenue" (VJson awaited)).

End RevenueDataController.


(** ** The orchestrators *)

(** The fetcher coroutines an orchestrator or a route can start. *)
Inductive fetch_call : Type :=
| HistoricalCall (ticker asset_type range period : string)
| QuoteCall (ticker asset_type : string)
| TimeSeriesCall (ticker asset_type : string)
| BalanceSheetCall (ticker : string)
| CashFlowCall (ticker : string)
| IncomeCall (ticker period : string)
| RatiosCall (ticker : string)
| RevenueCall (ticker : string).

(** Running one fetcher coroutine.  [BalanceSheetDataController] is
    imported by the stock orchestrator but is not among the sources; its
    [get_balance_sheet_data] is a parameter. *)
Definition perform (net : network) (pf : platform)
  (get_balance_sheet_data : network -> string -> M fetched)
  (call : fetch_call) : M fetched :=
  match call with
  | HistoricalCall ticker asset_type range period =>
      HistoricalDataController.get_asset_historical_data net ticker asset_type
        range period
  | QuoteCall ticker asset_type =>
      QuoteDataController.get_asset_quote_data net ticker asset_type
  | TimeSeriesCall ticker asset_type =>
      TimeSeriesDataController.get_asset_ts_data net pf ticker asset_type
  | BalanceSheetCall ticker => get_balance_sheet_data net ticker
  | CashFlowCall ticker => CashFlowDataController.get_cash_flow_data net ticker
  | IncomeCall ticker period =>
      IncomeDataController.get_income_data net ticker period
  | RatiosCall ticker => RatiosDataController.get_ratios_data net ticker
  | RevenueCall ticker => RevenueDataController.get_revenue_data net ticker
  end.

(** How a coroutine handed to [asyncio.gather] ended, and when. *)
Record completion : Type := mk_completion {
  finished_at : nat;
  outcome : result fetched
}.

(** The failure that reaches the caller of [gather]: the earliest one. *)
Fixpoint earliest_failure (cs : list completion) : option (nat * exn) :=
  match cs with
  | [] => None
  | c :: cs' =>
      match outcome c, earliest_failure cs' with
      | Raise e, Some (t, e') =>
          if (finished_at c <=? t)%nat then Some (finished_at c, e) else Some (t, e')
      | Raise e, None => Some (finished_at c, e)
      | Ok _, later => later
      end
  end.

(** [await asyncio.gather] over the coroutines: the results in the order
    of the arguments, or the first exception raised by any of them. *)
Definition gather (cs : list completion) : result (list fetched) :=
  match earliest_failure cs with
  | Some (_, e) => Raise e
  | None => mapM outcome cs
  end.

(** [task_data['data_type']: task_data['data']]; [None] is not
    subscriptable. *)
Definition envelope_item (task_data : fetched) : result (string * pyval) :=
  match task_data with
  | Envelope data_type data => Ok (data_type, data)
  | ReturnedNone => Raise TypeError
  end.

Record composed : Type := mk_composed {
  composed_ticker : string;
  composed_asset_type : string;
  composed_data : list (string * pyval)
}.

(** Source: [src/orchestrators/stock_data_orchestrator.py]. *)
Module StockDataOrchestrator.

Definition fetch_set (ticker : string) : list fetch_call :=
  [ HistoricalCall ticker "s" "5Y" "Daily";
    TimeSeriesCall ticker "s";
    BalanceSheetCall ticker;
    CashFlowCall ticker;
    IncomeCall ticker "quarterly";
    RatiosCall ticker;
    RevenueCall ticker ].

(** [await_all] tells how each coroutine of the fan-out ended. *)
Definition compose_stock_data (await_all : fetch_call -> completion)
  (ticker : string) : result composed :=
  tasks <- gather (map await_all (fetch_set ticker)) ;;
  data <- dict_comp envelope_item tasks ;;
  Ok (mk_composed ticker "stock" data).

End StockDataOrchestrator.

(** Source: [stock_processing/src/orchestrators/etf_data_orchestrator.py]. *)
Module ETFDataOrchestrator.

Definition fetch_set (ticker : string) : list fetch_call :=
  [ HistoricalCall ticker "e" "5Y" "Daily";
    TimeSeriesCall ticker "e" ].

Definition compose_etf_data (await_all : fetch_call -> completion)
  (ticker : string) : result composed :=
  tasks <- gather (map await_all (fetch_set ticker)) ;;
  data <- dict_comp envelope_item tasks ;;
  Ok (mk_composed ticker "etf" data).

End ETFDataOrchestrator.
(** ** Specification-level vocabulary *)

(** The value a well-formed payload stores at a non-negative index. *)
Definition at_index (data : list json) (i : Z) : option json :=
  if i <? 0 then None else nth_error data (Z.to_nat i).


(** [node] is the target node of the response: entry 2 of its node list. *)
Definition target_node (response node : json) : Prop :=
  exists top nodes,
    response = JObj top /\
    dict_get "nodes" top = Some (JArr nodes) /\
    nth_error nodes 2 = Some node.

(** An indexed-reference payload: the target node's ['data'] is the pool
    [data], whose first entry maps the glossary key to the index [g]. *)
Definition indexed_payload (glossary_key : string) (response : json)
  (data : list json) (g : Z) : Prop :=
  exists node d0,
    target_node response (JObj node) /\
    dict_get "data" node = Some (JArr data) /\
    nth_error data 0 = Some (JObj d0) /\
    dict_get glossary_key d0 = Some (JInt g).

(** A glossary is described by its fields in order: the field name, the
    index [i] the glossary stores for it, and the index list found at
    [data[i]]. *)
Definition field := (string * (Z * list Z))%type.
Definition field_name (f : field) : string := fst f.
Definition field_index (f : field) : Z := fst (snd f).
Definition field_indices (f : field) : list Z := snd (snd f).

Definition glossary_object (fields : list field) : json :=
  JObj (map (fun f => (field_name f, JInt (field_index f))) fields).

(** [data[i]] is the list of indices [js], all of them inside the pool. *)
Definition index_list (data : list json) (i : Z) (js : list Z) : Prop :=
  at_index data i = Some (JArr (map JInt js)) /\
  Forall (fun j => 0 <= j < Z.of_nat (List.length data)) js.



(** The four decoders that use the indexed-reference strategy, each with
    the glossary key it reads. *)
Definition indexed_decoders : list (string * (json -> result json)) :=
  [ ("financialData", CashFlowDataController.extract_financial_data);
    ("financialData", IncomeDataController.extract_financial_data);
    ("financialData", RatiosDataController.extract_financial_data);
    ("data", RevenueDataController.extract_financial_data) ].



(** A response whose target node carries the pool [data]. *)
Definition payload_with_pool (data : list json) : json :=
  JObj [("nodes", JArr [JNull; JNull; JObj [("data", JArr data)]])].

(** *** Vocabulary for the revenue payload

    A revenue record stores, for each of its own fields, an index into the
    pool. *)
Definition record := list (string * Z).

Definition record_object (r : record) : json :=
  JObj (map (fun kv => (fst kv, JInt (snd kv))) r).

(** The record carries the sentinel key ['limited']. *)
Definition is_limited (r : record) : bool :=
  existsb (String.eqb "limited") (map fst r).

(** [{dict_key: data[target_index] for dict_key, target_index in item.items()}] *)
Definition resolved_record (data : list json) (r : record) : json :=
  JObj (map (fun kv => (fst kv, nth (Z.to_nat (snd kv)) data JNull)) r).

(** The records without the sentinel, resolved, in their original order. *)
Definition revenue_rows (data : list json) (rs : list record) : list json :=
  map (resolved_record data) (filter (fun r => negb (is_limited r)) rs).

(** A revenue glossary field: its name, the index [i] stored for it, and
    for every index [j] of the list [data[i]] the record found at
    [data[j]]. *)
Definition revenue_field := (string * (Z * list (Z * record)))%type.
Definition revenue_field_name (f : revenue_field) : string := fst f.
Definition revenue_field_index (f : revenue_field) : Z := fst (snd f).
Definition revenue_field_records (f : revenue_field) : list (Z * record) :=
  snd (snd f).

Definition revenue_field_ok (data : list json) (f : revenue_field) : Prop :=
  at_index data (revenue_field_index f)
  = Some (JArr (map JInt (map fst (revenue_field_records f)))) /\
  forall j r, In (j, r) (revenue_field_records f) ->
    at_index data j = Some (record_object r) /\
    NoDup (map fst r) /\
    (is_limited r = false ->
     forall k t, In (k, t) r -> 0 <= t < Z.of_nat (List.length data)).

Definition revenue_example_pool : list json :=
  [ JObj [("data", JInt 1)];
    JObj [("quarterly", JInt 2)];
    JArr [JInt 3; JInt 4; JInt 8];
    JObj [("revenue", JInt 5); ("date", JInt 6)];
    JObj [("limited", JInt 7); ("revenue", JInt 5)];
    JInt 1000;
    JStr "2024-03-31";
    JBool true;
    JObj [("revenue", JInt 9); ("date", JInt 10)];
    JInt 900;
    JStr "2023-12-31" ].

Definition revenue_example_fields : list revenue_field :=
  [ ("quarterly",
     (2, [ (3, [("revenue", 5); ("date", 6)]);
           (4, [("limited", 7); ("revenue", 5)]);
           (8, [("revenue", 9); ("date", 10)]) ])) ].


(** *** Sample worlds and servers *)

(** The manager as the class definition leaves it: no session, both
    permits free, nothing sent. *)
Definition idle_world : world := mk_world false 2 0 [].

Definition ok_response (body : json) : response :=
  mk_response 200 "OK" None (Ok body).

Definition throttled (header : option string) : response :=
  mk_response 429 "Too Many Requests" header (Ok JNull).

(** A server that answers every request with the same response. *)
Definition always (r : response) : network := fun _ _ => r.


(** *** Parameter rules of the fetchers

    The rules each fetcher in the sources checks: a non-empty ticker, and
    for the price fetchers an asset type, range and period from the allowed
    sets. *)
Definition satisfies_rules (call : fetch_call) : bool :=
  match call with
  | HistoricalCall ticker asset_type range period =>
      negb (is_empty_string ticker)
      && mem asset_type ["s"; "e"]
      && mem range ["3M"; "6M"; "YTD"; "1Y"; "5Y"; "10Y"; "Max"]
      && mem period ["Daily"; "Weekly"; "Monthly"; "Quarterly"; "Annual"]
  | QuoteCall ticker asset_type | TimeSeriesCall ticker asset_type =>
      negb (is_empty_string ticker) && mem asset_type ["s"; "e"]
  | BalanceSheetCall ticker | CashFlowCall ticker | RatiosCall ticker
  | RevenueCall ticker | IncomeCall ticker _ =>
      negb (is_empty_string ticker)
  end.

(** The fetchers whose code is among the sources. *)
Definition in_sources (call : fetch_call) : Prop :=
  match call with
  | BalanceSheetCall _ => False
  | _ => True
  end.

(** The fetchers that answer an empty ticker with [None]. *)
Definition answers_none (call : fetch_call) : bool :=
  match call with
  | IncomeCall _ _ | RatiosCall _ => true
  | _ => false
  end.

Definition utc : platform := mk_platform (fun _ => 0) (fun _ => Raise ValueError).

(** *** Vocabulary for the orchestrators *)

(** [BalanceSheetDataController] is not among the sources.  What the
    orchestrator needs of its [get_balance_sheet_data], as the design
    document names the data type: when it returns, it returns an envelope
    of type ['balance_sheet']. *)
Definition balance_sheet_contract (net : network)
  (get_balance_sheet_data : network -> string -> M fetched) : Prop :=
  forall ticker w v w',
    get_balance_sheet_data net ticker w = Done (Ok v) w' ->
    exists d, v = Envelope "balance_sheet" d.

(** The outcome recorded for [call] is an outcome of running its fetcher
    from some world. *)
Definition ran (net : network) (pf : platform)
  (get_balance_sheet_data : network -> string -> M fetched)
  (await_all : fetch_call -> completion) (call : fetch_call) : Prop :=
  exists w w',
    perform net pf get_balance_sheet_data call w = Done (outcome (await_all call)) w'.

(** *** A sample upstream for the ticker AAPL *)

Definition sample_statement_pool : list json :=
  [ JObj [("financialData", JInt 1); ("data", JInt 4)];
    JObj [("fcf", JInt 2)];
    JArr [JInt 3];
    JInt 42;
    JObj [("quarterly", JInt 5)];
    JArr [JInt 6];
    JObj [("revenue", JInt 3)] ].

Definition sample_server : network :=
  fun _ url =>
    if String.prefix "https://api.stockanalysis.com/api/symbol/" url then
      if String.eqb (String.substring (String.length url - 10) 10 url) "type=chart"
      then ok_response
             (JObj [("data", JArr [JArr [JInt 1700000000000; JFloat 123.45%float]])])
      else ok_response
             (JObj [("data",
                     JObj [("data", JArr [JObj [("t", JStr "2023-11-14");
                                                ("c", JFloat 123.45%float)]])])])
    else ok_response (payload_with_pool sample_statement_pool).

Definition sample_balance_sheet : network -> string -> M fetched :=
  fun _ _ => retM (Envelope "balance_sheet" (VJson (JArr []))).

(** Every coroutine is run on its own from the idle world. *)
Definition sample_await (call : fetch_call) : completion :=
  mk_completion 0
    match perform sample_server utc sample_balance_sheet call idle_world with
    | Done r _ => r
    | Blocked _ => Raise (BaseException "blocked")
    end.

(** *** Vocabulary for the time-series entries *)

(** The day number of a proleptic Gregorian date, counted from
    1970-01-01. *)
Definition days_from_civil (date : Z * Z * Z) : Z :=
  let '(y, m, d) := date in
  let y' := y - (if m <=? 2 then 1 else 0) in
  let era := y' / 400 in
  let yoe := y' - era * 400 in
  let doy := (153 * (if 2 <? m then m - 3 else m + 9) + 2) / 5 + d - 1 in
  let doe := yoe * 365 + yoe / 4 - yoe / 100 + doy in
  era * 146097 + doe - 719468.

Definition year_of (date : Z * Z * Z) : Z := fst (fst date).
Definition month_of (date : Z * Z * Z) : Z := snd (fst date).
Definition day_of (date : Z * Z * Z) : Z := snd date.

(** The local calendar date of the instant [timestamp_ms / 1000]: the
    date of the whole second that contains it. *)
Definition instant_date (pf : platform) (timestamp_ms : Z) : string :=
  strftime_ymd (local_date pf (timestamp_ms / 1000)).

Definition time_series_record (date : string) (closing_price : float) : json :=
  JObj [("date", JStr date); ("closing_price", JFloat closing_price)].

(** A machine nine hours east of UTC. *)
Definition utc_plus_9 : platform :=
  mk_platform (fun _ => 32400) (fun _ => Raise ValueError).

(** *** Vocabulary for the label tables *)

(** The six static key-to-label tables of the controllers. *)
Definition label_tables : list (list (string * string)) :=
  [ CashFlowDataController.cash_flow_keys_to_labels;
    IncomeDataController.income_data_keys_to_labels;
    RatiosDataController.financial_ratios_keys_to_labels;
    HistoricalDataController.json_to_label_map;
    QuoteDataController.stock_quote_data_keys_to_labels;
    QuoteDataController.etf_quote_data_keys_to_labels ].

(** Every pair of an entry with its key renamed, in place. *)
Definition relabelled (table : list (string * string)) (entry : dict) : dict :=
  map (fun kv => (label_of table (fst kv), snd kv)) entry.

Fixpoint nodupb (l : list string) : bool :=
  match l with
  | [] => true
  | x :: l' => negb (mem x l') && nodupb l'
  end.

(** No key occurs twice, no label occurs twice, and no label is itself a
    key. *)
Definition table_ok (table : list (string * string)) : bool :=
  nodupb (map fst table) && nodupb (map snd table)
  && forallb (fun l => negb (mem l (map fst table))) (map snd table).

(** *** Vocabulary for traces *)

(** The URLs of the GET requests of a trace, in order. *)
Definition gets (evs : list event) : list string :=
  flat_map (fun e => match e with Get url => [url] | _ => [] end) evs.

Definition acquires (evs : list event) : nat :=
  List.length (filter (fun e => match e with Acquire => true | _ => false end) evs).

Definition releases (evs : list event) : nat :=
  List.length (filter (fun e => match e with Release => true | _ => false end) evs).

(** What a call did: the events it appended to the trace. *)
Definition did (w w' : world) (evs : list event) : Prop :=
  trace w' = (trace w ++ evs)%list.

(** *** Vocabulary for the fetchers *)

(** The ['data_type'] each fetcher writes into its envelope. *)
Definition data_type_of (call : fetch_call) : string :=
  match call with
  | HistoricalCall _ _ _ _ => "historical"
  | QuoteCall _ _ => "quote"
  | TimeSeriesCall _ _ => "time_series"
  | BalanceSheetCall _ => "balance_sheet"
  | CashFlowCall _ => "cash_flow"
  | IncomeCall _ _ => "income"
  | RatiosCall _ => "ratios"
  | RevenueCall _ => "revenue"
  end.

(** The world after one successful GET to [url]: the permit is back, a
    session is open, the cookies were cleared. *)
Definition after_one_get (url : string) (w : world) : world :=
  mk_world true (permits w) (S (requests w))
    (trace w ++ [Acquire] ++ (if session_open w then [] else [NewSession])
             ++ [Get url; ClearCookies; Release])%list.

(** The indexed decoder and the URL builder behind each statement call. *)
Definition statement_decoder (call : fetch_call) : option (json -> result json) :=
  match call with
  | CashFlowCall _ => Some CashFlowDataController.extract_financial_data
  | IncomeCall _ _ => Some IncomeDataController.extract_financial_data
  | RatiosCall _ => Some RatiosDataController.extract_financial_data
  | RevenueCall _ => Some RevenueDataController.extract_financial_data
  | _ => None
  end.

Definition statement_url (call : fetch_call) : string :=
  match call with
  | CashFlowCall ticker => CashFlowDataController.build_cash_flow_url ticker
  | IncomeCall ticker period => IncomeDataController.build_income_url ticker period
  | RatiosCall ticker => RatiosDataController.build_ratios_url ticker
  | RevenueCall ticker => RevenueDataController.build_revenue_url ticker
  | _ => ""
  end.

(** *** Vocabulary for the effects of a coroutine *)

(** [m] never changes the world: it awaits nothing of the session
    manager. *)
Definition touches_nothing {A} (m : M A) : Prop :=
  forall w r w', m w = Done r w' -> w' = w.

(** All [m] does to the world, when it ends, is what one call of
    [request_with_limit] does, or nothing. *)
Definition at_most_one_call {A} (net : network) (m : M A) : Prop :=
  forall w r w',
    m w = Done r w' ->
    w' = w \/ exists url r0, request_with_limit net url 0 w = Done r0 w'.

(** The dictionaries of a list of entries, when every entry is one. *)
Fixpoint as_dicts (entries : list json) : option (list dict) :=
  match entries with
  | [] => Some []
  | JObj d :: entries' => option_map (cons d) (as_dicts entries')
  | _ :: _ => None
  end.

(** A record with its keys replaced by the labels of [table]. *)
Definition labelled_record (table : list (string * string)) (d : dict) : json :=
  JObj (dict_of_items (relabelled table d)).

(** *** Vocabulary for the URLs *)

(** No opening brace in [s]: nothing in it can start a placeholder. *)
Fixpoint brace_free (s : string) : bool :=
  match s with
  | EmptyString => true
  | String c s' => negb (Ascii.eqb c "{") && brace_free s'
  end.

(** The URL a fetcher builds for its request. *)
Definition url_of (call : fetch_call) : result string :=
  match call with
  | HistoricalCall ticker asset_type range period =>
      HistoricalDataController.build_url_from_ticker ticker asset_type range period
  | QuoteCall ticker asset_type =>
      QuoteDataController.build_url_from_ticker ticker asset_type
  | TimeSeriesCall ticker asset_type =>
      TimeSeriesDataController.build_url_from_ticker ticker asset_type
  | BalanceSheetCall _ => Raise AttributeError
  | CashFlowCall ticker => Ok (CashFlowDataController.build_cash_flow_url ticker)
  | IncomeCall ticker period =>
      Ok (IncomeDataController.build_income_url ticker period)
  | RatiosCall ticker => Ok (RatiosDataController.build_ratios_url ticker)
  | RevenueCall ticker => Ok (RevenueDataController.build_revenue_url ticker)
  end.

(** Whenever [m] ends, what it did to the world is what one call of
    [request_with_limit] on [url] does. *)
Definition calls {A} (net : network) (url : string) (m : M A) : Prop :=
  forall w r w',
    m w = Done r w' -> exists r0, request_with_limit net url 0 w = Done r0 w'.
(** ** Properties of the Python primitives *)

Lemma at_index_range (data : list json) (i : Z) (v : json) :
  at_index data i = Some v -> 0 <= i < Z.of_nat (List.length data).
Proof.
  unfold at_index. destruct (Z.ltb_spec i 0); [discriminate|].
  intros E. assert (nth_error data (Z.to_nat i) <> None) as N by congruence.
  apply nth_error_Some in N. lia.
Qed.

Lemma seq_index_at {A} (l : list A) (z : Z) (a : A) :
  0 <= z -> nth_error l (Z.to_nat z) = Some a -> seq_index l z = Ok a.
Proof.
  intros Hz E. unfold seq_index.
  assert (nth_error l (Z.to_nat z) <> None) as N by congruence.
  apply nth_error_Some in N.
  destruct (Z.ltb_spec z 0); [lia|].
  destruct (Z.ltb_spec z 0); [lia|].
  destruct (Z.leb_spec (Z.of_nat (List.length l)) z); [lia|].
  simpl. now rewrite E.
Qed.

Lemma seq_index_out_of_bounds {A} (l : list A) (z : Z) :
  Z.of_nat (List.length l) <= z \/ z < - Z.of_nat (List.length l) ->
  seq_index l z = @Raise A IndexError.
Proof.
  intros H. unfold seq_index.
  destruct (Z.ltb_spec z 0).
  - destruct (Z.ltb_spec (z + Z.of_nat (List.length l)) 0); [reflexivity|].
    destruct (Z.leb_spec (Z.of_nat (List.length l)) (z + Z.of_nat (List.length l)));
      [reflexivity|lia].
  - destruct (Z.ltb_spec z 0); [lia|].
    destruct (Z.leb_spec (Z.of_nat (List.length l)) z); [reflexivity|lia].
Qed.

(** A negative index down to [-len] is inside Python's bounds: it selects
    from the end of the list. *)
Lemma seq_index_negative {A} (l : list A) (z : Z) (a : A) :
  - Z.of_nat (List.length l) <= z < 0 ->
  nth_error l (Z.to_nat (z + Z.of_nat (List.length l))) = Some a ->
  seq_index l z = Ok a.
Proof.
  intros H E. unfold seq_index.
  destruct (Z.ltb_spec z 0); [|lia].
  destruct (Z.ltb_spec (z + Z.of_nat (List.length l)) 0); [lia|].
  destruct (Z.leb_spec (Z.of_nat (List.length l)) (z + Z.of_nat (List.length l)));
    [lia|].
  simpl. now rewrite E.
Qed.

Lemma getitem_at_index (data : list json) (i : Z) (v : json) :
  at_index data i = Some v -> py_getitem (JArr data) (JInt i) = Ok v.
Proof.
  intros E. pose proof (at_index_range _ _ _ E) as R.
  unfold at_index in E. destruct (Z.ltb_spec i 0); [lia|].
  simpl. now apply seq_index_at.
Qed.

Lemma mapM_Forall2 {A B} (f : A -> result B) (l : list A) (l' : list B) :
  Forall2 (fun a b => f a = Ok b) l l' -> mapM f l = Ok l'.
Proof.
  induction 1 as [|a b l l' E _ IH]; simpl; [reflexivity|].
  now rewrite E, IH.
Qed.

Lemma mapM_map {A B} (f : A -> result B) (g : A -> B) (l : list A) :
  (forall a, In a l -> f a = Ok (g a)) -> mapM f l = Ok (map g l).
Proof.
  intros H. apply mapM_Forall2. induction l as [|a l IH]; simpl; constructor.
  - apply H. now left.
  - apply IH. intros x Hx. apply H. now right.
Qed.

Lemma mapM_length {A B} (f : A -> result B) (l : list A) (l' : list B) :
  mapM f l = Ok l' -> List.length l' = List.length l.
Proof.
  revert l'. induction l as [|a l IH]; simpl; intros l' E.
  - now inversion E.
  - destruct (f a); simpl in E; [|discriminate].
    destruct (mapM f l); simpl in E; [|discriminate].
    inversion E; subst. simpl. f_equal. now apply IH.
Qed.

(** *** Dictionary lemmas *)

Lemma dict_set_fresh {V} (k : string) (v : V) (d : list (string * V)) :
  ~ In k (map fst d) -> dict_set k v d = (d ++ [(k, v)])%list.
Proof.
  induction d as [|[k' v'] d IH]; simpl; intros N; [reflexivity|].
  destruct (String.eqb_spec k k') as [->|_].
  - exfalso. apply N. now left.
  - f_equal. apply IH. intros I. apply N. now right.
Qed.

Lemma dict_of_items_acc {V} (kvs acc : list (string * V)) :
  NoDup (map fst (acc ++ kvs)%list) ->
  fold_left (fun d kv => dict_set (fst kv) (snd kv) d) kvs acc = (acc ++ kvs)%list.
Proof.
  revert acc. induction kvs as [|[k v] kvs IH]; simpl; intros acc N.
  - now rewrite app_nil_r.
  - rewrite dict_set_fresh.
    + rewrite IH; rewrite <- app_assoc; [reflexivity|exact N].
    + rewrite map_app in N. simpl in N.
      apply NoDup_remove_2 in N. intros I. apply N. apply in_or_app. now left.
Qed.

Lemma dict_of_items_nodup {V} (kvs : list (string * V)) :
  NoDup (map fst kvs) -> dict_of_items kvs = kvs.
Proof. intros N. unfold dict_of_items. now rewrite dict_of_items_acc. Qed.

Lemma dict_get_set {V} (k k' : string) (v : V) (d : list (string * V)) :
  dict_get k (dict_set k' v d) = if String.eqb k k' then Some v else dict_get k d.
Proof.
  induction d as [|[k0 v0] d IH]; simpl.
  - reflexivity.
  - destruct (String.eqb_spec k' k0) as [->|N]; simpl.
    + destruct (String.eqb_spec k k0); reflexivity.
    + rewrite IH. destruct (String.eqb_spec k k0) as [->|_]; [|reflexivity].
      destruct (String.eqb_spec k0 k') as [E|_]; [congruence|reflexivity].
Qed.



Lemma NoDup_fst_functional {A B} (l : list (A * B)) (a : A) (b b' : B) :
  NoDup (map fst l) -> In (a, b) l -> In (a, b') l -> b = b'.
Proof.
  induction l as [|[a0 b0] l IH]; simpl; intros N I I'; [contradiction|].
  inversion N as [|? ? Nin N']; subst.
  destruct I as [E|I], I' as [E'|I'].
  - congruence.
  - inversion E; subst. exfalso. apply Nin.
    change a with (fst (a, b')). now apply in_map.
  - inversion E'; subst. exfalso. apply Nin.
    change a with (fst (a, b)). now apply in_map.
  - now apply IH.
Qed.

(** ** The indexed-reference decoder on well-formed payloads *)

Section IndexedReferenceFacts.

Variable glossary_key : string.
Variable keys_to_labels : list (string * string).

Lemma target_data_payload (response : json) (data : list json) (g : Z) :
  indexed_payload glossary_key response data g ->
  target_data response = Ok (JArr data).
Proof.
  intros (node & d0 & (top & nodes & -> & Hn & H2) & Hd & H0 & _).
  unfold target_data. cbn [py_get bind]. rewrite Hn.
  destruct nodes as [|n0 [|n1 [|n2 nodes]]]; try discriminate.
  simpl in H2. injection H2 as ->.
  cbn [truthy negb py_len bind].
  destruct (Z.ltb_spec (Z.of_nat (List.length (n0 :: n1 :: JObj node :: nodes))) 3)
    as [L|_]; [simpl in L; lia|].
  cbn [py_getitem index_of].
  rewrite (seq_index_at _ 2 (JObj node)) by (lia || reflexivity).
  cbn [bind py_get]. rewrite Hd.
  destruct data; [discriminate|]. reflexivity.
Qed.

Lemma at_index_nth (data : list json) (j : Z) :
  0 <= j < Z.of_nat (List.length data) ->
  at_index data j = Some (nth (Z.to_nat j) data JNull).
Proof.
  intros R. unfold at_index. destruct (Z.ltb_spec j 0); [lia|].
  apply nth_error_nth'. lia.
Qed.

Lemma glossary_indices (data : list json) (g : Z) (d0 : dict) (fields : list field) :
  nth_error data 0 = Some (JObj d0) ->
  dict_get glossary_key d0 = Some (JInt g) ->
  at_index data g = Some (glossary_object fields) ->
  fields <> [] ->
  NoDup (map field_name fields) ->
  (forall f, In f fields -> index_list data (field_index f) (field_indices f)) ->
  get_financial_data_indices_with glossary_key (JArr data)
  = Ok (map (fun f => (field_name f, JArr (map JInt (field_indices f)))) fields).
Proof.
  intros H0 Hg Hobj Hne Hnd Hf. unfold get_financial_data_indices_with.
  rewrite (getitem_at_index data 0 (JObj d0)) by exact H0.
  cbn [bind py_get]. rewrite Hg.
  rewrite (getitem_at_index _ _ _ Hobj). cbn [bind].
  assert (truthy (glossary_object fields) = true) as ->
    by (destruct fields; [congruence|reflexivity]).
  unfold glossary_object. cbn [negb py_items bind].
  unfold dict_comp.
  rewrite (mapM_map _ (fun kv : string * json =>
             (fst kv, match snd kv with
                      | JInt i => nth (Z.to_nat i) data JNull
                      | _ => JNull
                      end))).
  - cbn [bind]. f_equal.
    rewrite map_map. cbn [fst snd].
    rewrite dict_of_items_nodup.
    + apply map_ext_in. intros f I. f_equal.
      destruct (Hf f I) as [E _].
      rewrite at_index_nth in E by (eapply at_index_range; exact E).
      congruence.
    + rewrite map_map. cbn [fst]. exact Hnd.
  - intros [k v] I.
    apply in_map_iff in I. destruct I as (f & E & I). inversion E; subst.
    cbn [fst snd]. destruct (Hf f I) as [E' _].
    rewrite (getitem_at_index _ _ _ E'). cbn [bind].
    rewrite at_index_nth in E' by (eapply at_index_range; exact E').
    congruence.
Qed.




End IndexedReferenceFacts.

(** ** Two-level indirection *)



(** ** Failure policy of the decoder *)

Lemma decoder_target_raise (gk : string) (decode : json -> result json)
  (response : json) (e : exn) :
  In (gk, decode) indexed_decoders ->
  target_data response = Raise e -> decode response = Raise e.
Proof.
  intros I E. simpl in I.
  destruct I as [H|[H|[H|[H|[]]]]]; inversion H; subst;
    [unfold CashFlowDataController.extract_financial_data
    |unfold IncomeDataController.extract_financial_data
    |unfold RatiosDataController.extract_financial_data
    |unfold RevenueDataController.extract_financial_data];
    unfold extract_financial_data_with; now rewrite E.
Qed.

Lemma decoder_indices_raise (gk : string) (decode : json -> result json)
  (response data : json) (e : exn) :
  In (gk, decode) indexed_decoders ->
  target_data response = Ok data ->
  get_financial_data_indices_with gk data = Raise e ->
  decode response = Raise e.
Proof.
  intros I T E. simpl in I.
  destruct I as [H|[H|[H|[H|[]]]]]; inversion H; subst;
    [unfold CashFlowDataController.extract_financial_data
    |unfold IncomeDataController.extract_financial_data
    |unfold RatiosDataController.extract_financial_data
    |unfold RevenueDataController.extract_financial_data,
            RevenueDataController.get_financial_data_indices];
    unfold extract_financial_data_with; rewrite T; cbn [bind]; now rewrite E.
Qed.

Lemma target_data_few_nodes (top : dict) (nodes : list json) :
  dict_get "nodes" top = Some (JArr nodes) ->
  (List.length nodes < 3)%nat ->
  target_data (JObj top) = Raise (BaseException "Target node does not exist.").
Proof.
  intros Hn L. unfold target_data. cbn [py_get bind]. rewrite Hn.
  destruct nodes as [|n0 nodes]; [reflexivity|].
  cbn [truthy negb py_len bind].
  destruct (Z.ltb_spec (Z.of_nat (List.length (n0 :: nodes))) 3); [reflexivity|lia].
Qed.

Lemma target_data_no_nodes (top : dict) :
  dict_get "nodes" top = None ->
  target_data (JObj top) = Raise (BaseException "Target node does not exist.").
Proof. intros Hn. unfold target_data. cbn [py_get bind]. now rewrite Hn. Qed.

Lemma target_data_node (response node : json) :
  target_node response node ->
  target_data response
  = (data <- py_get node "data" ;;
     if negb (truthy data)
     then Raise (BaseException "No data was found in the target node.")
     else Ok data).
Proof.
  intros (top & nodes & -> & Hn & H2).
  unfold target_data. cbn [py_get bind]. rewrite Hn.
  destruct nodes as [|n0 [|n1 [|n2 nodes]]]; try discriminate.
  simpl in H2. injection H2 as ->.
  cbn [truthy negb py_len bind].
  destruct (Z.ltb_spec (Z.of_nat (List.length (n0 :: n1 :: node :: nodes))) 3)
    as [L|_]; [simpl in L; lia|].
  cbn [py_getitem index_of].
  now rewrite (seq_index_at _ 2 node) by (lia || reflexivity).
Qed.

Lemma target_data_pool (gk : string) (response : json) (data : list json) (g : Z) :
  indexed_payload gk response data g -> target_data response = Ok (JArr data).
Proof. apply target_data_payload. Qed.

(** C2, as the code has it.  Each of the four indexed decoders raises, and
    so returns no result at all, when the node list is absent or has fewer
    than three entries, when the target node has no ['data'] field, when
    [data[0]] has no glossary key, and when the glossary index [g] is
    beyond the pool in the sense of Python's list subscription:
    [len(data) <= g] or [g < -len(data)].  The first three are the
    decoder's own [BaseException]s, the last is the runtime's
    [IndexError].  An index from [-len(data)] to [-1] is not refused: it
    counts from the end of the pool. *)
Theorem indexed_decode_fails_on_malformed_payload
  (gk : string) (decode : json -> result json) (response : json) :
  In (gk, decode) indexed_decoders ->
  (forall top nodes,
     response = JObj top ->
     dict_get "nodes" top = None \/
     (dict_get "nodes" top = Some (JArr nodes) /\ (List.length nodes < 3)%nat) ->
     decode response = Raise (BaseException "Target node does not exist.")) /\
  (forall node,
     target_node response (JObj node) ->
     dict_get "data" node = None ->
     decode response = Raise (BaseException "No data was found in the target node.")) /\
  (forall node data d0,
     target_node response (JObj node) ->
     dict_get "data" node = Some (JArr data) ->
     nth_error data 0 = Some (JObj d0) ->
     dict_get gk d0 = None ->
     decode response
     = Raise (BaseException ("No index for " ++ gk ++ " was found."))) /\
  (forall data g,
     indexed_payload gk response data g ->
     Z.of_nat (List.length data) <= g \/ g < - Z.of_nat (List.length data) ->
     decode response = Raise IndexError).
Proof.
  intros I. repeat split.
  - intros top nodes -> [Hn|[Hn L]]; apply (decoder_target_raise gk _ _ _ I).
    + now apply target_data_no_nodes.
    + now apply target_data_few_nodes with (nodes := nodes).
  - intros node T Hd. apply (decoder_target_raise gk _ _ _ I).
    rewrite (target_data_node _ _ T). cbn [py_get bind]. now rewrite Hd.
  - intros node data d0 T Hd H0 Hg.
    apply (decoder_indices_raise gk _ _ (JArr data) _ I).
    + rewrite (target_data_node _ _ T). cbn [py_get bind]. rewrite Hd.
      destruct data; [discriminate|reflexivity].
    + unfold get_financial_data_indices_with.
      rewrite (getitem_at_index data 0 (JObj d0)) by exact H0.
      cbn [bind py_get]. now rewrite Hg.
  - intros data g P B.
    apply (decoder_indices_raise gk _ _ (JArr data) _ I).
    + now apply target_data_pool with (gk := gk) (g := g).
    + destruct P as (node & d0 & _ & _ & H0 & Hg).
      unfold get_financial_data_indices_with.
      rewrite (getitem_at_index data 0 (JObj d0)) by exact H0.
      cbn [bind py_get]. rewrite Hg. cbn [py_getitem index_of].
      now rewrite seq_index_out_of_bounds.
Qed.

(** C10.  A present-but-empty structure is rejected like a missing one:
    a target node whose ['data'] is the empty array raises the very
    exception raised for a node without ['data'], and a glossary index
    that resolves to an empty mapping raises as well; no decoder returns
    an empty result for such a payload. *)
Theorem indexed_decode_rejects_empty
  (gk : string) (decode : json -> result json) (response : json) :
  In (gk, decode) indexed_decoders ->
  (forall node,
     target_node response (JObj node) ->
     dict_get "data" node = Some (JArr []) ->
     decode response = Raise (BaseException "No data was found in the target node.")) /\
  (forall data g,
     indexed_payload gk response data g ->
     at_index data g = Some (JObj []) ->
     decode response
     = Raise (BaseException ("No object existed at " ++ gk ++ " index."))).
Proof.
  intros I. split.
  - intros node T Hd. apply (decoder_target_raise gk _ _ _ I).
    rewrite (target_data_node _ _ T). cbn [py_get bind]. now rewrite Hd.
  - intros data g P Hobj.
    apply (decoder_indices_raise gk _ _ (JArr data) _ I).
    + now apply target_data_pool with (gk := gk) (g := g).
    + destruct P as (node & d0 & _ & _ & H0 & Hg).
      unfold get_financial_data_indices_with.
      rewrite (getitem_at_index data 0 (JObj d0)) by exact H0.
      cbn [bind py_get]. rewrite Hg.
      now rewrite (getitem_at_index _ _ _ Hobj).
Qed.

Lemma target_node_payload_with_pool (data : list json) :
  target_node (payload_with_pool data) (JObj [("data", JArr data)]).
Proof. eexists _, _. repeat split; reflexivity. Qed.

Lemma indexed_payload_with_pool (gk : string) (d0 : dict) (rest : list json) (g : Z) :
  dict_get gk d0 = Some (JInt g) ->
  indexed_payload gk (payload_with_pool (JObj d0 :: rest)) (JObj d0 :: rest) g.
Proof.
  intros Hg. exists [("data", JArr (JObj d0 :: rest))], d0.
  split; [apply target_node_payload_with_pool|].
  split; [reflexivity|]. split; [reflexivity|exact Hg].
Qed.

Lemma indexed_decode_fails_on_malformed_payload_witness :
  CashFlowDataController.extract_financial_data (JObj [("nodes", JArr [JNull; JNull])])
  = Raise (BaseException "Target node does not exist.") /\
  CashFlowDataController.extract_financial_data
    (JObj [("nodes", JArr [JNull; JNull; JObj [("type", JStr "data")]])])
  = Raise (BaseException "No data was found in the target node.") /\
  CashFlowDataController.extract_financial_data
    (payload_with_pool [JObj [("other", JInt 1)]; JObj [("fcf", JInt 2)]])
  = Raise (BaseException "No index for financialData was found.") /\
  CashFlowDataController.extract_financial_data
    (payload_with_pool [JObj [("financialData", JInt 7)]; JObj [("fcf", JInt 2)]])
  = Raise IndexError.
Proof.
  split; [|split; [|split]].
  - apply (proj1 (indexed_decode_fails_on_malformed_payload "financialData" _
                    (JObj [("nodes", JArr [JNull; JNull])])
                    (or_introl eq_refl))
             [("nodes", JArr [JNull; JNull])] [JNull; JNull] eq_refl).
    right. split; [reflexivity|simpl; lia].
  - apply (proj1 (proj2 (indexed_decode_fails_on_malformed_payload "financialData" _
                    (JObj [("nodes", JArr [JNull; JNull; JObj [("type", JStr "data")]])])
                    (or_introl eq_refl)))
             [("type", JStr "data")]).
    + exists [("nodes", JArr [JNull; JNull; JObj [("type", JStr "data")]])],
             [JNull; JNull; JObj [("type", JStr "data")]].
      split; [reflexivity|split; reflexivity].
    + reflexivity.
  - apply (proj1 (proj2 (proj2 (indexed_decode_fails_on_malformed_payload
                    "financialData" _
                    (payload_with_pool [JObj [("other", JInt 1)]; JObj [("fcf", JInt 2)]])
                    (or_introl eq_refl))))
             [("data", JArr [JObj [("other", JInt 1)]; JObj [("fcf", JInt 2)]])]
             [JObj [("other", JInt 1)]; JObj [("fcf", JInt 2)]]
             [("other", JInt 1)]).
    + apply target_node_payload_with_pool.
    + reflexivity.
    + reflexivity.
    + reflexivity.
  - apply (proj2 (proj2 (proj2 (indexed_decode_fails_on_malformed_payload
                    "financialData" _
                    (payload_with_pool [JObj [("financialData", JInt 7)];
                                        JObj [("fcf", JInt 2)]])
                    (or_introl eq_refl))))
             [JObj [("financialData", JInt 7)]; JObj [("fcf", JInt 2)]] 7).
    + now apply indexed_payload_with_pool.
    + left. simpl. lia.
Defined.

Lemma indexed_decode_rejects_empty_witness :
  IncomeDataController.extract_financial_data
    (JObj [("nodes", JArr [JNull; JNull; JObj [("data", JArr [])]])])
  = Raise (BaseException "No data was found in the target node.") /\
  IncomeDataController.extract_financial_data
    (payload_with_pool [JObj [("financialData", JInt 1)]; JObj []])
  = Raise (BaseException "No object existed at financialData index.").
Proof.
  split.
  - apply (proj1 (indexed_decode_rejects_empty "financialData" _
                    (JObj [("nodes", JArr [JNull; JNull; JObj [("data", JArr [])]])])
                    (or_intror (or_introl eq_refl)))
             [("data", JArr [])]).
    + exists [("nodes", JArr [JNull; JNull; JObj [("data", JArr [])]])],
             [JNull; JNull; JObj [("data", JArr [])]].
      split; [reflexivity|split; reflexivity].
    + reflexivity.
  - apply (proj2 (indexed_decode_rejects_empty "financialData" _
                    (payload_with_pool [JObj [("financialData", JInt 1)]; JObj []])
                    (or_intror (or_introl eq_refl)))
             [JObj [("financialData", JInt 1)]; JObj []] 1).
    + now apply indexed_payload_with_pool.
    + reflexivity.
Defined.

(** The glossary index [-1] points at no position of the pool, yet the
    decoder does not fail: Python reads [data[-1]], the last entry. *)
Lemma negative_glossary_index_counts_from_the_end :
  let pool := [JObj [("financialData", JInt (-1))];
               JArr [JInt 2]; JInt 42;
               JObj [("fcf", JInt 1)]] in
  indexed_payload "financialData" (payload_with_pool pool) pool (-1) /\
  at_index pool (-1) = None /\
  CashFlowDataController.extract_financial_data (payload_with_pool pool)
  = Ok (JArr [JObj [("free_cash_flow", JArr [JInt 42])]]).
Proof.
  intros pool. split; [|split; reflexivity].
  now apply indexed_payload_with_pool.
Qed.

(** ** The revenue decoder *)

Lemma resolve_record_object (data : list json) (r : record) :
  NoDup (map fst r) ->
  (is_limited r = false ->
   forall k t, In (k, t) r -> 0 <= t < Z.of_nat (List.length data)) ->
  RevenueDataController.resolve_record (JArr data) (record_object r)
  = Ok (if is_limited r then None else Some (resolved_record data r)).
Proof.
  intros Hnd Hr. unfold RevenueDataController.resolve_record, record_object.
  cbn [py_keys bind]. rewrite map_map. cbn [fst].
  change (existsb (String.eqb "limited") (map (fun x : string * Z => fst x) r))
    with (is_limited r).
  destruct (is_limited r) eqn:L; [reflexivity|].
  cbn [py_items bind]. unfold dict_comp.
  rewrite (mapM_map _ (fun kv : string * json =>
             (fst kv, match snd kv with
                      | JInt t => nth (Z.to_nat t) data JNull
                      | _ => JNull
                      end))).
  - cbn [bind]. rewrite map_map. cbn [fst snd].
    rewrite dict_of_items_nodup; [reflexivity|].
    rewrite map_map. exact Hnd.
  - intros [k v] I. apply in_map_iff in I. destruct I as ([k' t] & E & I).
    inversion E; subst. cbn [fst snd].
    rewrite (getitem_at_index data t (nth (Z.to_nat t) data JNull)); [reflexivity|].
    apply at_index_nth. now apply (Hr eq_refl k).
Qed.

Lemma somes_map_filter {A B} (p : A -> bool) (h : A -> B) (l : list A) :
  RevenueDataController.somes (map (fun a => if p a then None else Some (h a)) l)
  = map h (filter (fun a => negb (p a)) l).
Proof.
  induction l as [|a l IH]; simpl; [reflexivity|].
  destruct (p a); simpl; now rewrite IH.
Qed.

Lemma resolve_records_field (data : list json) (f : revenue_field) :
  revenue_field_ok data f ->
  RevenueDataController.resolve_records (JArr data)
    (revenue_field_name f,
     JArr (map JInt (map fst (revenue_field_records f))))
  = Ok (revenue_field_name f,
        JArr (revenue_rows data (map snd (revenue_field_records f)))).
Proof.
  intros [_ Hr]. unfold RevenueDataController.resolve_records.
  cbn [fst snd py_iter bind].
  rewrite (mapM_Forall2 _ _ (map (fun jr => record_object (snd jr))
                                 (revenue_field_records f))).
  - cbn [bind].
    rewrite (mapM_Forall2 _ _
               (map (fun jr => if is_limited (snd jr) then None
                               else Some (resolved_record data (snd jr)))
                    (revenue_field_records f))).
    + cbn [bind]. unfold revenue_rows.
      rewrite <- (somes_map_filter is_limited (resolved_record data)).
      now rewrite map_map.
    + induction (revenue_field_records f) as [|[j r] l IH]; simpl; constructor.
      * destruct (Hr j r (or_introl eq_refl)) as (_ & Hnd & Ht).
        now apply resolve_record_object.
      * apply IH. intros j' r' I. apply Hr. now right.
  - induction (revenue_field_records f) as [|[j r] l IH]; simpl; constructor.
    + destruct (Hr j r (or_introl eq_refl)) as (E & _).
      now apply getitem_at_index.
    + apply IH. intros j' r' I. apply Hr. now right.
Qed.

(** C7.  On a revenue payload whose index lists point at records that map
    their own field names to pool indices, the revenue decoder resolves
    every field of every record through one more lookup in the pool,
    leaves out each record that carries the key ['limited'], and keeps the
    other records in the order of the index list. *)
Theorem revenue_decode_resolves_records_and_drops_limited
  (response : json) (data : list json) (g : Z) (fields : list revenue_field) :
  indexed_payload "data" response data g ->
  at_index data g
  = Some (JObj (map (fun f => (revenue_field_name f, JInt (revenue_field_index f)))
                    fields)) ->
  fields <> [] ->
  NoDup (map revenue_field_name fields) ->
  (forall f, In f fields -> revenue_field_ok data f) ->
  RevenueDataController.extract_financial_data response
  = Ok (JObj (map (fun f =>
                     (revenue_field_name f,
                      JArr (revenue_rows data (map snd (revenue_field_records f)))))
                  fields)).
Proof.
  intros P Hobj Hne Hnd Hf.
  unfold RevenueDataController.extract_financial_data.
  rewrite (target_data_pool _ _ _ _ P). cbn [bind].
  destruct P as (node & d0 & _ & _ & H0 & Hg).
  set (plain := map (fun f : revenue_field =>
                       (revenue_field_name f,
                        (revenue_field_index f, map fst (revenue_field_records f))))
                    fields).
  unfold RevenueDataController.get_financial_data_indices.
  rewrite (glossary_indices "data" data g d0 plain); try assumption.
  - cbn [bind]. unfold dict_comp.
    rewrite (mapM_Forall2 _ _
               (map (fun f => (revenue_field_name f,
                               JArr (revenue_rows data
                                       (map snd (revenue_field_records f)))))
                    fields)).
    + cbn [bind]. f_equal. f_equal. apply dict_of_items_nodup.
      rewrite map_map. exact Hnd.
    + subst plain. rewrite map_map. clear Hobj Hne Hnd.
      induction fields as [|f fields IH]; simpl; constructor.
      * apply resolve_records_field. apply Hf. now left.
      * apply IH. intros f' I. apply Hf. now right.
  - subst plain. unfold glossary_object. now rewrite map_map.
  - subst plain. destruct fields; [congruence|discriminate].
  - subst plain. now rewrite map_map.
  - subst plain. intros f' I. apply in_map_iff in I. destruct I as (f & <- & I).
    destruct (Hf f I) as [E Hr]. split; [exact E|].
    apply Forall_forall. intros j Ij. cbn in Ij.
    apply in_map_iff in Ij. destruct Ij as ([j' r] & <- & Ij).
    destruct (Hr j' r Ij) as (E' & _). exact (at_index_range _ _ _ E').
Qed.

Lemma revenue_decode_resolves_records_and_drops_limited_witness :
  RevenueDataController.extract_financial_data (payload_with_pool revenue_example_pool)
  = Ok (JObj [("quarterly",
               JArr [JObj [("revenue", JInt 1000); ("date", JStr "2024-03-31")];
                     JObj [("revenue", JInt 900); ("date", JStr "2023-12-31")]])]).
Proof.
  apply (revenue_decode_resolves_records_and_drops_limited
           (payload_with_pool revenue_example_pool) revenue_example_pool 1
           revenue_example_fields).
  - now apply indexed_payload_with_pool.
  - reflexivity.
  - discriminate.
  - repeat constructor. simpl. intros [].
  - intros f [<-|[]]. split; [reflexivity|].
    intros j r [E|[E|[E|[]]]]; inversion E; subst;
      (split; [reflexivity|split; [repeat constructor; simpl; intuition discriminate|]]).
    + intros _ k t [E'|[E'|[]]]; inversion E'; subst; simpl; lia.
    + intros L. discriminate L.
    + intros _ k t [E'|[E'|[]]]; inversion E'; subst; simpl; lia.
Defined.

(** ** Shape of a successful decode *)


Lemma dict_set_keys_present {V} (k : string) (v : V) (d : list (string * V)) :
  In k (map fst d) -> map fst (dict_set k v d) = map fst d.
Proof.
  induction d as [|[k' v'] d IH]; simpl; [contradiction|].
  intros I. destruct (String.eqb_spec k k') as [->|N]; [reflexivity|].
  simpl. f_equal. apply IH. destruct I; congruence.
Qed.

Lemma dict_of_items_keys_NoDup {V} (kvs : list (string * V)) :
  NoDup (map fst (dict_of_items kvs)).
Proof.
  unfold dict_of_items.
  assert (forall acc, NoDup (map fst acc) ->
            NoDup (map fst (fold_left (fun d kv => dict_set (fst kv) (snd kv) d)
                                      kvs acc))) as G.
  { induction kvs as [|[k v] kvs IH]; simpl; intros acc N; [exact N|].
    apply IH. destruct (in_dec string_dec k (map fst acc)) as [I|I].
    - now rewrite dict_set_keys_present.
    - rewrite dict_set_fresh by exact I. rewrite map_app. simpl.
      apply NoDup_app; [exact N|repeat constructor; intros []|].
      intros x Ix [<-|[]]. contradiction. }
  apply G. constructor.
Qed.







(** ** The rate-limited client *)

Lemma app_trace (t a b : list event) : ((t ++ a) ++ b = t ++ (a ++ b))%list.
Proof. now rewrite app_assoc. Qed.

Ltac status_case :=
  repeat match goal with
  | H : ?s = ?n |- context [?s =? ?n] => rewrite (proj2 (Z.eqb_eq s n) H)
  | H : ?s <> ?n |- context [?s =? ?n] => rewrite (proj2 (Z.eqb_neq s n) H)
  | H : ?s = 429 |- context [?s =? 200] =>
      rewrite (proj2 (Z.eqb_neq s 200)) by (rewrite H; discriminate)
  end.

Ltac world_eq :=
  cbv [release log set_permits set_session count_request get_session
       close_session session_open permits requests trace];
  repeat rewrite app_trace; cbn [app]; try reflexivity.



(** The retry is issued inside the first call's [async with]: a caller
    that took the last permit and is throttled waits for a permit that
    only its own return would free. *)
Lemma request_with_limit_retry_needs_a_second_permit
  (net : network) (url : string) (w : world) (seconds : Z) :
  permits w = 1%nat ->
  status (net (requests w) url) = 429 ->
  retry_delay (net (requests w) url) = Some seconds ->
  exists w', request_with_limit net url 0 w = Blocked w'.
Proof.
  destruct w as [s p n t]. cbn [permits requests]. intros -> H429 Hd.
  unfold request_with_limit. change (Z.to_nat (1 - 0)) with 1%nat.
  cbn [request_with_limit_rec permits].
  assert (requests (get_session (log Acquire (set_permits 0
                     (mk_world s 1 n t)))) = n) as Rn
    by (destruct s; reflexivity).
  rewrite Rn. status_case. change (0 <? 1) with true. cbn [andb]. rewrite Hd.
  assert (permits (log (Sleep seconds)
            (close_session (log ClearCookies (log (Get url)
               (count_request (get_session (log Acquire (set_permits 0
                  (mk_world s 1 n t))))))))) = 0%nat) as ->
    by (destruct s; reflexivity).
  eauto.
Qed.

Lemma request_with_limit_ok (net : network) (url : string) (retries : Z) (w : world) :
  (1 <= permits w)%nat ->
  status (net (requests w) url) = 200 ->
  request_with_limit net url retries w
  = Done (json_body (net (requests w) url))
      (mk_world true (permits w) (S (requests w))
         (trace w ++ [Acquire] ++ (if session_open w then [] else [NewSession])
                 ++ [Get url; ClearCookies; Release])%list).
Proof.
  destruct w as [s p n t]. cbn [permits requests session_open trace].
  intros Hp H200. destruct p as [|free]; [lia|].
  unfold request_with_limit.
  assert (requests (get_session (log Acquire (set_permits free
                     (mk_world s (S free) n t)))) = n) as Rn
    by (destruct s; reflexivity).
  destruct (Z.to_nat (1 - retries));
    cbn [request_with_limit_rec permits]; rewrite Rn; status_case;
    f_equal; destruct s; world_eq.
Qed.

(** The recursion budget is never the reason for a call to stop: any
    budget of at least [1 - retries] gives the result of the call. *)
Lemma request_with_limit_budget (net : network) (budget : nat) (url : string)
  (retries : Z) (w : world) :
  (Z.to_nat (1 - retries) <= budget)%nat ->
  request_with_limit_rec net budget url retries w
  = request_with_limit net url retries w.
Proof.
  unfold request_with_limit. revert retries w.
  induction budget as [|b IH]; intros retries w Hb.
  - replace (Z.to_nat (1 - retries)) with 0%nat by lia. reflexivity.
  - destruct (Z.to_nat (1 - retries)) as [|n] eqn:En.
    + cbn [request_with_limit_rec]. destruct (permits w); [reflexivity|].
      destruct (status _ =? 200); [reflexivity|].
      destruct (Z.ltb_spec retries 1); [lia|]. now rewrite andb_false_r.
    + cbn [request_with_limit_rec]. destruct (permits w); [reflexivity|].
      destruct (status _ =? 200); [reflexivity|].
      destruct ((status _ =? 429) && (retries <? 1)); [|reflexivity].
      destruct (retry_delay _); [|reflexivity].
      rewrite IH by lia.
      replace n with (Z.to_nat (1 - (retries + 1))) by lia. reflexivity.
Qed.

(** ** Parameter validation in the fetchers *)

Lemma validate_historical_parameters_ok (ticker asset_type range period : string)
  (b : bool) :
  HistoricalDataController.validate_historical_parameters ticker asset_type range period
  = Ok b ->
  b = true /\ satisfies_rules (HistoricalCall ticker asset_type range period) = true.
Proof.
  unfold HistoricalDataController.validate_historical_parameters, satisfies_rules.
  destruct (is_empty_string ticker); [discriminate|].
  destruct (is_empty_string asset_type); [discriminate|].
  destruct (is_empty_string range); [discriminate|].
  destruct (is_empty_string period); [discriminate|]. cbn [orb negb andb].
  unfold HistoricalDataController.valid_asset_types,
    HistoricalDataController.valid_ranges, HistoricalDataController.valid_periods.
  destruct (mem asset_type ["s"; "e"]); [|discriminate].
  destruct (mem range ["3M"; "6M"; "YTD"; "1Y"; "5Y"; "10Y"; "Max"]); [|discriminate].
  destruct (mem period ["Daily"; "Weekly"; "Monthly"; "Quarterly"; "Annual"]);
    [|discriminate].
  cbn [negb andb]. intros E. inversion E. now split.
Qed.

Lemma validate_ts_parameters_ok (ticker asset_type : string) (b : bool) :
  TimeSeriesDataController.validate_ts_parameters ticker asset_type = Ok b ->
  b = true /\ satisfies_rules (TimeSeriesCall ticker asset_type) = true.
Proof.
  unfold TimeSeriesDataController.validate_ts_parameters, satisfies_rules.
  destruct (is_empty_string ticker); [discriminate|].
  destruct (is_empty_string asset_type); [discriminate|]. cbn [orb negb andb].
  unfold TimeSeriesDataController.valid_asset_types.
  destruct (mem asset_type ["s"; "e"]); [|discriminate].
  cbn [negb]. intros E. inversion E. now split.
Qed.




(** ** Empty upstream payloads *)

Lemma bindM_Ok {A B} (m : M A) (k : A -> M B) (w w' : world) (b : B) :
  bindM m k w = Done (Ok b) w' ->
  exists a w1, m w = Done (Ok a) w1 /\ k a w1 = Done (Ok b) w'.
Proof.
  unfold bindM. destruct (m w) as [[a|e] w1|w1]; try discriminate. eauto.
Qed.

Lemma liftM_Ok {A} (r : result A) (w w' : world) (a : A) :
  liftM r w = Done (Ok a) w' -> r = Ok a /\ w' = w.
Proof. unfold liftM. intros E. inversion E. now split. Qed.

(** When the upstream body is a dictionary whose ['data'] is absent or
    false (null, [[]], [{}], 0, ...), the three price fetchers return an
    envelope; its ['data'] is the task object, not the empty value. *)
Lemma empty_payload_is_wrapped_in_the_task
  (net : network) (pf : platform) (bs : network -> string -> M fetched)
  (call : fetch_call) (w : world) (top : dict) (empty : json) :
  match call with
  | HistoricalCall _ _ _ _ | QuoteCall _ _ | TimeSeriesCall _ _ => True
  | _ => False
  end ->
  satisfies_rules call = true ->
  (1 <= permits w)%nat ->
  (forall url, status (net (requests w) url) = 200 /\
               json_body (net (requests w) url) = Ok (JObj top)) ->
  match dict_get "data" top with Some v => v | None => JNull end = empty ->
  truthy empty = false ->
  exists data_type w',
    perform net pf bs call w = Done (Ok (Envelope data_type (VTask empty))) w'.
Proof.
  intros K R Hp Hnet He Hf.
  destruct call as [t a r p|t a|t a|t|t|t p|t|t]; try contradiction;
    cbn [perform satisfies_rules] in *.
  - apply andb_prop in R. destruct R as [R Rp].
    apply andb_prop in R. destruct R as [R Rr].
    apply andb_prop in R. destruct R as [Rt Ra]. apply negb_true_iff in Rt.
    assert (is_empty_string a = false) as Ea.
    { cbn in Ra. unfold is_empty_string.
      destruct (String.eqb_spec a ""); [subst; discriminate|reflexivity]. }
    assert (is_empty_string r = false) as Er.
    { cbn in Rr. unfold is_empty_string.
      destruct (String.eqb_spec r ""); [subst; discriminate|reflexivity]. }
    assert (is_empty_string p = false) as Ep.
    { cbn in Rp. unfold is_empty_string.
      destruct (String.eqb_spec p ""); [subst; discriminate|reflexivity]. }
    unfold HistoricalDataController.get_asset_historical_data,
      HistoricalDataController.validate_historical_parameters,
      HistoricalDataController.build_url_from_ticker,
      HistoricalDataController.get_historical_data_from_url,
      HistoricalDataController.valid_asset_types,
      HistoricalDataController.valid_ranges,
      HistoricalDataController.valid_periods.
    rewrite Rt, Ea, Er, Ep, Ra, Rr, Rp. cbn [orb negb].
    unfold bindM at 1. unfold liftM at 1. cbn [negb].
    unfold bindM at 1. unfold liftM at 1.
    unfold bindM at 1. unfold bindM at 1.
    rewrite request_with_limit_ok by (exact Hp || apply Hnet).
    rewrite (proj2 (Hnet _)). unfold liftM. cbn [py_get bind].
    rewrite He, Hf. cbn [negb]. rewrite Hf. cbn [negb].
    eexists _, _. reflexivity.
  - apply andb_prop in R. destruct R as [Rt Ra]. apply negb_true_iff in Rt.
    assert (is_empty_string a = false) as Ea.
    { cbn in Ra. unfold is_empty_string.
      destruct (String.eqb_spec a ""); [subst; discriminate|reflexivity]. }
    unfold QuoteDataController.get_asset_quote_data,
      QuoteDataController.build_url_from_ticker,
      QuoteDataController.get_quote_data_from_url,
      QuoteDataController.valid_asset_types.
    rewrite Rt, Ea, Ra. cbn [orb negb].
    unfold bindM at 1. unfold liftM at 1.
    unfold bindM at 1. unfold bindM at 1.
    rewrite request_with_limit_ok by (exact Hp || apply Hnet).
    rewrite (proj2 (Hnet _)). unfold liftM. cbn [py_get].
    rewrite He, Hf. cbn [negb].
    eexists _, _. reflexivity.
  - apply andb_prop in R. destruct R as [Rt Ra]. apply negb_true_iff in Rt.
    assert (is_empty_string a = false) as Ea.
    { cbn in Ra. unfold is_empty_string.
      destruct (String.eqb_spec a ""); [subst; discriminate|reflexivity]. }
    unfold TimeSeriesDataController.get_asset_ts_data,
      TimeSeriesDataController.validate_ts_parameters,
      TimeSeriesDataController.build_url_from_ticker,
      TimeSeriesDataController.get_ts_data_from_url,
      TimeSeriesDataController.valid_asset_types.
    rewrite Rt, Ea, Ra. cbn [orb negb].
    unfold bindM at 1. unfold liftM at 1. cbn [negb].
    unfold bindM at 1. unfold liftM at 1.
    unfold bindM at 1. unfold bindM at 1.
    rewrite request_with_limit_ok by (exact Hp || apply Hnet).
    rewrite (proj2 (Hnet _)). unfold liftM. cbn [py_get].
    rewrite He, Hf. cbn [negb].
    eexists _, _. reflexivity.
Qed.

(** C6, on the code.  The historical, quote and time-series fetchers, given
    an upstream body [{"data": null}], return an envelope without failing,
    but the envelope's ['data'] entry is the [asyncio.Task] held in the
    variable [data], not the empty value the task produced. *)
Theorem empty_payload_envelope_holds_the_task :
  let net := always (ok_response (JObj [("data", JNull)])) in
  (exists w',
     HistoricalDataController.get_asset_historical_data net "AAPL" "s" "5Y" "Daily"
       idle_world
     = Done (Ok (Envelope "historical" (VTask JNull))) w') /\
  (exists w',
     QuoteDataController.get_asset_quote_data net "AAPL" "s" idle_world
     = Done (Ok (Envelope "quote" (VTask JNull))) w') /\
  (exists w',
     TimeSeriesDataController.get_asset_ts_data net utc "AAPL" "s" idle_world
     = Done (Ok (Envelope "time_series" (VTask JNull))) w') /\
  VTask JNull <> VJson JNull.
Proof.
  intros net. split; [|split; [|split]].
  - eexists. vm_compute. reflexivity.
  - eexists. vm_compute. reflexivity.
  - eexists. vm_compute. reflexivity.
  - discriminate.
Qed.

(** ** Fan-out and fan-in *)

Lemma historical_returns (net : network) (t a r p : string) (w w' : world)
  (v : fetched) :
  HistoricalDataController.get_asset_historical_data net t a r p w = Done (Ok v) w' ->
  (exists d, v = Envelope "historical" d) /\
  satisfies_rules (HistoricalCall t a r p) = true.
Proof.
  unfold HistoricalDataController.get_asset_historical_data. intros E.
  apply bindM_Ok in E. destruct E as (valid & w1 & V & E).
  apply liftM_Ok in V. destruct V as [V ->].
  apply validate_historical_parameters_ok in V. destruct V as [-> R].
  split; [|exact R]. cbn [negb] in E.
  apply bindM_Ok in E. destruct E as (url & w2 & _ & E).
  apply bindM_Ok in E. destruct E as (awaited & w3 & _ & E).
  destruct (negb (truthy awaited)).
  - inversion E. eauto.
  - apply bindM_Ok in E. destruct E as (fd & w4 & _ & E). inversion E. eauto.
Qed.

Lemma time_series_returns (net : network) (pf : platform) (t a : string)
  (w w' : world) (v : fetched) :
  TimeSeriesDataController.get_asset_ts_data net pf t a w = Done (Ok v) w' ->
  exists d, v = Envelope "time_series" d.
Proof.
  unfold TimeSeriesDataController.get_asset_ts_data. intros E.
  apply bindM_Ok in E. destruct E as (valid & w1 & V & E).
  apply liftM_Ok in V. destruct V as [V ->].
  apply validate_ts_parameters_ok in V. destruct V as [-> _]. cbn [negb] in E.
  apply bindM_Ok in E. destruct E as (url & w2 & _ & E).
  apply bindM_Ok in E. destruct E as (awaited & w3 & _ & E).
  destruct (negb (truthy awaited)).
  - inversion E. eauto.
  - apply bindM_Ok in E. destruct E as (fd & w4 & _ & E). inversion E. eauto.
Qed.

Lemma cash_flow_returns (net : network) (t : string) (w w' : world) (v : fetched) :
  CashFlowDataController.get_cash_flow_data net t w = Done (Ok v) w' ->
  exists d, v = Envelope "cash_flow" d.
Proof.
  unfold CashFlowDataController.get_cash_flow_data.
  destruct (is_empty_string t); [discriminate|]. intros E.
  apply bindM_Ok in E. destruct E as (awaited & w1 & _ & E). inversion E. eauto.
Qed.

Lemma revenue_returns (net : network) (t : string) (w w' : world) (v : fetched) :
  RevenueDataController.get_revenue_data net t w = Done (Ok v) w' ->
  exists d, v = Envelope "revenue" d.
Proof.
  unfold RevenueDataController.get_revenue_data.
  destruct (is_empty_string t); [discriminate|]. intros E.
  apply bindM_Ok in E. destruct E as (awaited & w1 & _ & E). inversion E. eauto.
Qed.

Lemma income_returns (net : network) (t p : string) (w w' : world) (v : fetched) :
  is_empty_string t = false ->
  IncomeDataController.get_income_data net t p w = Done (Ok v) w' ->
  exists d, v = Envelope "income" d.
Proof.
  unfold IncomeDataController.get_income_data. intros ->. intros E.
  apply bindM_Ok in E. destruct E as (awaited & w1 & _ & E). inversion E. eauto.
Qed.

Lemma ratios_returns (net : network) (t : string) (w w' : world) (v : fetched) :
  is_empty_string t = false ->
  RatiosDataController.get_ratios_data net t w = Done (Ok v) w' ->
  exists d, v = Envelope "ratios" d.
Proof.
  unfold RatiosDataController.get_ratios_data. intros ->. intros E.
  apply bindM_Ok in E. destruct E as (awaited & w1 & _ & E). inversion E. eauto.
Qed.

Lemma earliest_failure_some (cs : list completion) (c : completion) (e : exn) :
  In c cs -> outcome c = Raise e -> exists t e', earliest_failure cs = Some (t, e').
Proof.
  induction cs as [|c0 cs IH]; simpl; [contradiction|].
  intros [->|I] E.
  - rewrite E. destruct (earliest_failure cs) as [[t e']|]; [|eauto].
    destruct (finished_at c <=? t)%nat; eauto.
  - destruct (IH I E) as (t & e' & ->).
    destruct (outcome c0); [eauto|].
    destruct (finished_at c0 <=? t)%nat; eauto.
Qed.

Lemma gather_fails (cs : list completion) (c : completion) (e : exn) :
  In c cs -> outcome c = Raise e -> exists e', gather cs = Raise e'.
Proof.
  intros I E. destruct (earliest_failure_some cs c e I E) as (t & e' & F).
  unfold gather. rewrite F. eauto.
Qed.

(** The exception [gather] raises is one that a coroutine raised. *)
Lemma gather_raises_a_raised (cs : list completion) (e : exn) :
  gather cs = Raise e -> exists c, In c cs /\ outcome c = Raise e.
Proof.
  unfold gather.
  assert (forall t e', earliest_failure cs = Some (t, e') ->
            exists c, In c cs /\ outcome c = Raise e') as F.
  { induction cs as [|c0 cs IH]; simpl; [discriminate|]. intros t e'.
    destruct (outcome c0) as [v|e0] eqn:O.
    - intros E. destruct (IH _ _ E) as (c & I & Oc). eauto.
    - destruct (earliest_failure cs) as [[t1 e1]|].
      + destruct (finished_at c0 <=? t1)%nat; intros E; inversion E; subst.
        * eauto.
        * destruct (IH _ _ eq_refl) as (c & I & Oc). eauto.
      + intros E. inversion E; subst. eauto. }
  destruct (earliest_failure cs) as [[t e']|] eqn:E.
  - intros R. inversion R; subst. eauto.
  - assert (forall l, earliest_failure l = None ->
              exists vs, mapM outcome l = Ok vs) as G.
    { induction l as [|c0 l IH]; simpl; [eauto|].
      destruct (outcome c0).
      - intros N. destruct (IH N) as (vs & ->). simpl. eauto.
      - destruct (earliest_failure l) as [[? ?]|]; [|discriminate].
        destruct (finished_at c0 <=? n)%nat; discriminate. }
    destruct (G cs E) as (vs & ->). discriminate.
Qed.

Lemma ran_Ok (net : network) (pf : platform)
  (bs : network -> string -> M fetched) (await_all : fetch_call -> completion)
  (call : fetch_call) (v : fetched) :
  ran net pf bs await_all call ->
  outcome (await_all call) = Ok v ->
  exists w w', perform net pf bs call w = Done (Ok v) w'.
Proof. intros (w & w' & E) O. rewrite O in E. eauto. Qed.

(** C8.  Composition is all or nothing.  If one coroutine of the fan-out
    raises, [compose_stock_data] ([compose_etf_data]) raises and gives no
    result; if all of them return, the result carries the ticker, the asset
    class and a data mapping whose keys are the data types of the fetch set,
    each exactly once: historical, time_series, balance_sheet, cash_flow,
    income, ratios, revenue for a stock, historical and time_series for an
    ETF. *)
Theorem compose_is_all_or_nothing (net : network) (pf : platform)
  (get_balance_sheet_data : network -> string -> M fetched)
  (await_all : fetch_call -> completion) (ticker : string) :
  balance_sheet_contract net get_balance_sheet_data ->
  (forall call,
     In call (StockDataOrchestrator.fetch_set ticker) \/
     In call (ETFDataOrchestrator.fetch_set ticker) ->
     ran net pf get_balance_sheet_data await_all call) ->
  ((exists call e, In call (StockDataOrchestrator.fetch_set ticker) /\
                   outcome (await_all call) = Raise e) ->
   fails (StockDataOrchestrator.compose_stock_data await_all ticker)) /\
  ((forall call, In call (StockDataOrchestrator.fetch_set ticker) ->
                 exists v, outcome (await_all call) = Ok v) ->
   exists data,
     StockDataOrchestrator.compose_stock_data await_all ticker
     = Ok (mk_composed ticker "stock" data) /\
     map fst data = ["historical"; "time_series"; "balance_sheet"; "cash_flow";
                     "income"; "ratios"; "revenue"]) /\
  ((exists call e, In call (ETFDataOrchestrator.fetch_set ticker) /\
                   outcome (await_all call) = Raise e) ->
   fails (ETFDataOrchestrator.compose_etf_data await_all ticker)) /\
  ((forall call, In call (ETFDataOrchestrator.fetch_set ticker) ->
                 exists v, outcome (await_all call) = Ok v) ->
   exists data,
     ETFDataOrchestrator.compose_etf_data await_all ticker
     = Ok (mk_composed ticker "etf" data) /\
     map fst data = ["historical"; "time_series"]).
Proof.
  intros BS Ran. split; [|split; [|split]].
  - intros (call & e & I & O).
    destruct (gather_fails (map await_all (StockDataOrchestrator.fetch_set ticker))
                (await_all call) e (in_map _ _ _ I) O) as (e' & G).
    exists e'. unfold StockDataOrchestrator.compose_stock_data. now rewrite G.
  - intros All.
    assert (forall call, In call (StockDataOrchestrator.fetch_set ticker) ->
              exists v w w', outcome (await_all call) = Ok v /\
                perform net pf get_balance_sheet_data call w = Done (Ok v) w') as P.
    { intros call I. destruct (All call I) as (v & O).
      destruct (ran_Ok _ _ _ _ _ _ (Ran call (or_introl I)) O) as (w & w' & E).
      eauto. }
    unfold StockDataOrchestrator.fetch_set in P.
    destruct (P _ (or_introl eq_refl)) as (v1 & ? & ? & O1 & E1).
    destruct (P _ (or_intror (or_introl eq_refl))) as (v2 & ? & ? & O2 & E2).
    destruct (P _ (or_intror (or_intror (or_introl eq_refl))))
      as (v3 & ? & ? & O3 & E3).
    destruct (P _ (or_intror (or_intror (or_intror (or_introl eq_refl)))))
      as (v4 & ? & ? & O4 & E4).
    destruct (P _ (or_intror (or_intror (or_intror (or_intror (or_introl eq_refl))))))
      as (v5 & ? & ? & O5 & E5).
    destruct (P _ (or_intror (or_intror (or_intror (or_intror
                     (or_intror (or_introl eq_refl)))))))
      as (v6 & ? & ? & O6 & E6).
    destruct (P _ (or_intror (or_intror (or_intror (or_intror
                     (or_intror (or_intror (or_introl eq_refl))))))))
      as (v7 & ? & ? & O7 & E7).
    cbn [perform] in *.
    apply historical_returns in E1. destruct E1 as [[d1 ->] R].
    cbn [satisfies_rules] in R.
    assert (is_empty_string ticker = false) as Nt
      by (destruct (is_empty_string ticker); [discriminate R|reflexivity]).
    apply time_series_returns in E2. destruct E2 as [d2 ->].
    apply BS in E3. destruct E3 as [d3 ->].
    apply cash_flow_returns in E4. destruct E4 as [d4 ->].
    apply (income_returns _ _ _ _ _ _ Nt) in E5. destruct E5 as [d5 ->].
    apply (ratios_returns _ _ _ _ _ Nt) in E6. destruct E6 as [d6 ->].
    apply revenue_returns in E7. destruct E7 as [d7 ->].
    unfold StockDataOrchestrator.compose_stock_data,
      StockDataOrchestrator.fetch_set, gather.
    cbn [map earliest_failure mapM]. rewrite O1, O2, O3, O4, O5, O6, O7.
    cbn [bind]. eexists. split; reflexivity.
  - intros (call & e & I & O).
    destruct (gather_fails (map await_all (ETFDataOrchestrator.fetch_set ticker))
                (await_all call) e (in_map _ _ _ I) O) as (e' & G).
    exists e'. unfold ETFDataOrchestrator.compose_etf_data. now rewrite G.
  - intros All.
    assert (forall call, In call (ETFDataOrchestrator.fetch_set ticker) ->
              exists v w w', outcome (await_all call) = Ok v /\
                perform net pf get_balance_sheet_data call w = Done (Ok v) w') as P.
    { intros call I. destruct (All call I) as (v & O).
      destruct (ran_Ok _ _ _ _ _ _ (Ran call (or_intror I)) O) as (w & w' & E).
      eauto. }
    unfold ETFDataOrchestrator.fetch_set in P.
    destruct (P _ (or_introl eq_refl)) as (v1 & ? & ? & O1 & E1).
    destruct (P _ (or_intror (or_introl eq_refl))) as (v2 & ? & ? & O2 & E2).
    cbn [perform] in *.
    apply historical_returns in E1. destruct E1 as [[d1 ->] _].
    apply time_series_returns in E2. destruct E2 as [d2 ->].
    unfold ETFDataOrchestrator.compose_etf_data, ETFDataOrchestrator.fetch_set, gather.
    cbn [map earliest_failure mapM]. rewrite O1, O2.
    cbn [bind]. eexists. split; reflexivity.
Qed.

Lemma sample_await_ran (call : fetch_call) :
  In call (StockDataOrchestrator.fetch_set "AAPL") \/
  In call (ETFDataOrchestrator.fetch_set "AAPL") ->
  ran sample_server utc sample_balance_sheet sample_await call.
Proof.
  intros I. exists idle_world.
  exists (match perform sample_server utc sample_balance_sheet call idle_world with
          | Done _ w' => w'
          | Blocked w' => w'
          end).
  destruct I as [I|I];
    cbn [StockDataOrchestrator.fetch_set ETFDataOrchestrator.fetch_set In] in I;
    repeat (destruct I as [I|I]; [subst call; vm_compute; reflexivity|]);
    contradiction.
Qed.

Lemma compose_is_all_or_nothing_witness :
  exists data,
    StockDataOrchestrator.compose_stock_data sample_await "AAPL"
    = Ok (mk_composed "AAPL" "stock" data) /\
    map fst data = ["historical"; "time_series"; "balance_sheet"; "cash_flow";
                    "income"; "ratios"; "revenue"].
Proof.
  destruct (compose_is_all_or_nothing sample_server utc sample_balance_sheet
              sample_await "AAPL") as (_ & H & _).
  - intros t w v w' E. inversion E. eauto.
  - apply sample_await_ran.
  - apply H. intros call I.
    exists (match outcome (sample_await call) with
            | Ok v => v
            | Raise _ => ReturnedNone
            end).
    cbn [StockDataOrchestrator.fetch_set In] in I.
    repeat (destruct I as [I|I]; [subst call; vm_compute; reflexivity|]).
    contradiction.
Defined.

(** ** Time-series entries *)

Lemma year_of_era_range (doe : Z) :
  0 <= doe <= 146096 ->
  let yoe := (doe - doe / 1460 + doe / 36524 - doe / 146096) / 365 in
  0 <= yoe <= 399 /\ 0 <= doe - (365 * yoe + yoe / 4 - yoe / 100) <= 365.
Proof. intros H yoe. subst yoe. Z.div_mod_to_equations. lia. Qed.

(** The date computed for a day number has a month in 1..12 and a day in
    1..31. *)
Lemma civil_from_days_valid (z : Z) :
  1 <= month_of (civil_from_days z) <= 12 /\
  1 <= day_of (civil_from_days z) <= 31.
Proof.
  unfold civil_from_days, month_of, day_of. cbn [fst snd].
  set (doe := z + 719468 - (z + 719468) / 146097 * 146097).
  assert (0 <= doe <= 146096) as Hd by (subst doe; Z.div_mod_to_equations; lia).
  destruct (year_of_era_range doe Hd) as [Hy Hdoy].
  set (yoe := (doe - doe / 1460 + doe / 36524 - doe / 146096) / 365) in *.
  set (doy := doe - (365 * yoe + yoe / 4 - yoe / 100)) in *.
  set (mp := (5 * doy + 2) / 153).
  assert (0 <= mp <= 11) as Hmp by (subst mp; Z.div_mod_to_equations; lia).
  split.
  - destruct (Z.ltb_spec mp 10); lia.
  - subst mp. Z.div_mod_to_equations. lia.
Qed.

(** ... and it is the date of that day: counting the days back gives the
    day number. *)
Lemma days_from_civil_from_days (z : Z) : days_from_civil (civil_from_days z) = z.
Proof.
  unfold civil_from_days, days_from_civil.
  set (doe := z + 719468 - (z + 719468) / 146097 * 146097).
  assert (0 <= doe <= 146096) as Hd by (subst doe; Z.div_mod_to_equations; lia).
  destruct (year_of_era_range doe Hd) as [Hy Hdoy].
  set (yoe := (doe - doe / 1460 + doe / 36524 - doe / 146096) / 365) in *.
  set (doy := doe - (365 * yoe + yoe / 4 - yoe / 100)) in *.
  set (mp := (5 * doy + 2) / 153).
  assert (0 <= mp <= 11) as Hmp by (subst mp; Z.div_mod_to_equations; lia).
  set (era := (z + 719468) / 146097) in *.
  set (m := if mp <? 10 then mp + 3 else mp - 9).
  assert ((if 2 <? m then m - 3 else m + 9) = mp) as ->.
  { subst m. destruct (Z.ltb_spec mp 10).
    - destruct (Z.ltb_spec 2 (mp + 3)); lia.
    - destruct (Z.ltb_spec 2 (mp - 9)); lia. }
  replace (yoe + era * 400 + (if m <=? 2 then 1 else 0) - (if m <=? 2 then 1 else 0))
    with (yoe + era * 400) by lia.
  assert ((yoe + era * 400) / 400 = era) as -> by (Z.div_mod_to_equations; lia).
  replace (yoe + era * 400 - era * 400) with yoe by lia.
  replace ((153 * mp + 2) / 5 + (doy - (153 * mp + 2) / 5 + 1) - 1) with doy by lia.
  subst doy doe era. lia.
Qed.

(** C9, as the code has it.  A two-element entry [[timestamp_ms,
    closing_price]] whose timestamp divides and rounds without error to the
    whole second [s = round(timestamp_ms / 1000.0)] (nearest integer, ties
    to even) decodes to [{date, closing_price}] where [date] is the local
    calendar date of second [s], written YYYY-MM-DD with a month in 1..12
    and a day in 1..31 (for a local year from 1000 to 9999), and
    [closing_price] is [float(closing_price)].  The date is that of the
    rounded second, not of the instant [timestamp_ms / 1000] itself. *)
Theorem time_series_entry_decodes_to_date_of_rounded_second
  (pf : platform) (timestamp_ms closing_price : json) (x : float) (s : Z)
  (price : float) :
  py_truediv timestamp_ms 1000%float = Ok x ->
  py_round x = Ok s ->
  1000 <= year_of (local_date pf s) <= 9999 ->
  py_float pf closing_price = Ok price ->
  TimeSeriesDataController.convert_time_series_entry pf
    (JArr [timestamp_ms; closing_price])
  = Ok (time_series_record (strftime_ymd (local_date pf s)) price) /\
  days_from_civil (local_date pf s) = (s + utcoffset pf s) / 86400 /\
  1 <= month_of (local_date pf s) <= 12 /\
  1 <= day_of (local_date pf s) <= 31.
Proof.
  intros Hx Hs Hy Hp. split; [|split].
  - unfold TimeSeriesDataController.convert_time_series_entry.
    cbn [py_iter bind]. rewrite Hx. cbn [bind]. rewrite Hs. cbn [bind].
    unfold fromtimestamp. destruct (local_date pf s) as [[y m] d] eqn:L.
    unfold year_of in Hy. cbn [fst] in Hy.
    destruct (Z.ltb_spec y 1); [lia|]. destruct (Z.ltb_spec 9999 y); [lia|].
    cbn [orb bind]. rewrite Hp. reflexivity.
  - unfold local_date. apply days_from_civil_from_days.
  - unfold local_date. apply civil_from_days_valid.
Qed.

Lemma time_series_entry_decodes_to_date_of_rounded_second_witness :
  TimeSeriesDataController.convert_time_series_entry utc
    (JArr [JInt 1700000000000; JFloat 123.45%float])
  = Ok (time_series_record "2023-11-14" 123.45%float).
Proof.
  apply (proj1 (time_series_entry_decodes_to_date_of_rounded_second utc
                  (JInt 1700000000000) (JFloat 123.45%float)
                  1700000000%float 1700000000 123.45%float
                  eq_refl eq_refl ltac:(vm_compute; split; discriminate) eq_refl)).
Defined.

(** The same entry on a machine nine hours east of UTC falls on the next
    local day. *)
Example time_series_entry_uses_the_local_zone :
  TimeSeriesDataController.convert_time_series_entry utc_plus_9
    (JArr [JInt 1700000000000; JFloat 123.45%float])
  = Ok (time_series_record "2023-11-15" 123.45%float).
Proof. vm_compute. reflexivity. Qed.

(** An instant in the last half second of a local day is dated to the
    following day: 1700006399.9 s is 2023-11-14 23:59:59.9 UTC, and its
    entry decodes to 2023-11-15. *)
Lemma time_series_date_is_of_the_rounded_second :
  TimeSeriesDataController.convert_time_series_entry utc
    (JArr [JInt 1700006399900; JFloat 123.45%float])
  = Ok (time_series_record "2023-11-15" 123.45%float) /\
  instant_date utc 1700006399900 = "2023-11-14".
Proof. split; vm_compute; reflexivity. Qed.

(** * Further properties of the code *)

(** ** The label tables and the rename pass *)

Lemma mem_In (x : string) (l : list string) : mem x l = true <-> In x l.
Proof.
  unfold mem. rewrite existsb_exists. split.
  - intros (y & I & E). apply String.eqb_eq in E. now subst.
  - intros I. exists x. split; [exact I|apply String.eqb_refl].
Qed.

Lemma nodupb_NoDup (l : list string) : nodupb l = true -> NoDup l.
Proof.
  induction l as [|x l IH]; simpl; intros H; constructor.
  - apply andb_prop in H. destruct H as [H _]. apply negb_true_iff in H.
    intros I. apply mem_In in I. congruence.
  - apply IH. now apply andb_prop in H.
Qed.

Lemma label_tables_ok (table : list (string * string)) :
  In table label_tables -> table_ok table = true.
Proof.
  intros I. simpl in I.
  repeat (destruct I as [<-|I]; [vm_compute; reflexivity|]). contradiction.
Qed.

Lemma table_ok_parts (table : list (string * string)) :
  table_ok table = true ->
  NoDup (map fst table) /\ NoDup (map snd table) /\
  forall l, In l (map snd table) -> ~ In l (map fst table).
Proof.
  unfold table_ok. intros H.
  apply andb_prop in H. destruct H as [H H3].
  apply andb_prop in H. destruct H as [H1 H2].
  split; [now apply nodupb_NoDup|]. split; [now apply nodupb_NoDup|].
  intros l I N. rewrite forallb_forall in H3. specialize (H3 l I).
  apply negb_true_iff in H3. apply mem_In in N. congruence.
Qed.

Lemma label_of_absent (table : list (string * string)) (key : string) :
  ~ In key (map fst table) -> label_of table key = key.
Proof.
  induction table as [|[k l] t IH]; simpl; intros N; [reflexivity|].
  destruct (String.eqb_spec key k) as [->|_].
  - exfalso. apply N. now left.
  - apply IH. intros I. apply N. now right.
Qed.

Lemma label_of_present (table : list (string * string)) (key label : string) :
  NoDup (map fst table) -> In (key, label) table -> label_of table key = label.
Proof.
  induction table as [|[k l] t IH]; simpl; intros N I; [contradiction|].
  inversion N as [|? ? Nin N']; subst.
  destruct (String.eqb_spec key k) as [->|Ne].
  - destruct I as [E|I]; [congruence|].
    exfalso. apply Nin. change k with (fst (k, label)). now apply in_map.
  - destruct I as [E|I]; [congruence|now apply IH].
Qed.

Lemma label_of_cases (table : list (string * string)) (key : string) :
  (~ In key (map fst table) /\ label_of table key = key) \/
  In (key, label_of table key) table.
Proof.
  induction table as [|[k l] t IH]; simpl; [left; split; [tauto|reflexivity]|].
  destruct (String.eqb_spec key k) as [->|Ne].
  - right. now left.
  - destruct IH as [[N E]|I].
    + left. split; [|exact E]. intros [E'|I]; [congruence|contradiction].
    + right. now right.
Qed.

(** On every table, a key the table does not list is left as it is, and a
    listed key is renamed to the label written next to it. *)
Theorem rename_is_identity_off_the_table_and_the_label_on_it
  (table : list (string * string)) (key : string) :
  In table label_tables ->
  (~ In key (map fst table) -> label_of table key = key) /\
  (forall label, In (key, label) table -> label_of table key = label).
Proof.
  intros I. split; [apply label_of_absent|].
  intros label Il. apply label_of_present; [|exact Il].
  now apply (table_ok_parts table (label_tables_ok table I)).
Qed.

Lemma rename_is_identity_off_the_table_and_the_label_on_it_witness :
  label_of HistoricalDataController.json_to_label_map "volume_weighted" = "volume_weighted" /\
  label_of HistoricalDataController.json_to_label_map "ch" = "price_change".
Proof.
  destruct (rename_is_identity_off_the_table_and_the_label_on_it
              HistoricalDataController.json_to_label_map)
    with (key := "volume_weighted") as [H1 _];
    [simpl; tauto|].
  destruct (rename_is_identity_off_the_table_and_the_label_on_it
              HistoricalDataController.json_to_label_map)
    with (key := "ch") as [_ H2];
    [simpl; tauto|].
  split.
  - apply H1. simpl. intuition discriminate.
  - apply H2. simpl. tauto.
Defined.

(** Renaming twice is renaming once: no label of a table is a key of it. *)
Theorem rename_is_idempotent (table : list (string * string)) (key : string) :
  In table label_tables ->
  label_of table (label_of table key) = label_of table key.
Proof.
  intros I. destruct (table_ok_parts table (label_tables_ok table I)) as (_ & _ & H).
  destruct (label_of_cases table key) as [[_ E]|Il].
  - now rewrite E.
  - apply label_of_absent. apply H. apply in_map_iff.
    exists (key, label_of table key). now split.
Qed.

Lemma rename_is_idempotent_witness :
  label_of IncomeDataController.income_data_keys_to_labels
    (label_of IncomeDataController.income_data_keys_to_labels "revenue")
  = label_of IncomeDataController.income_data_keys_to_labels "revenue".
Proof.
  apply rename_is_idempotent. simpl. tauto.
Defined.

Lemma NoDup_snd_functional {A B} (l : list (A * B)) (a a' : A) (b : B) :
  NoDup (map snd l) -> In (a, b) l -> In (a', b) l -> a = a'.
Proof.
  intros N I I'.
  apply (NoDup_fst_functional (map (fun ab => (snd ab, fst ab)) l) b a a').
  - rewrite map_map. exact N.
  - apply in_map_iff. exists (a, b). now split.
  - apply in_map_iff. exists (a', b). now split.
Qed.

Lemma label_of_injective_on_raw_keys (table : list (string * string)) (k1 k2 : string) :
  table_ok table = true ->
  ~ In k1 (map snd table) -> ~ In k2 (map snd table) ->
  label_of table k1 = label_of table k2 -> k1 = k2.
Proof.
  intros Ok N1 N2 E. destruct (table_ok_parts table Ok) as (_ & Hl & _).
  destruct (label_of_cases table k1) as [[_ E1]|I1],
           (label_of_cases table k2) as [[_ E2]|I2].
  - congruence.
  - exfalso. apply N1. rewrite <- E1, E. apply in_map_iff.
    exists (k2, label_of table k2). now split.
  - exfalso. apply N2. rewrite <- E2, <- E. apply in_map_iff.
    exists (k1, label_of table k1). now split.
  - rewrite E in I1. exact (NoDup_snd_functional _ _ _ _ Hl I1 I2).
Qed.

Lemma NoDup_map_injective {A B} (f : A -> B) (l : list A) :
  NoDup l ->
  (forall x y, In x l -> In y l -> f x = f y -> x = y) ->
  NoDup (map f l).
Proof.
  induction 1 as [|x l Nin N IH]; simpl; intros Inj; constructor.
  - intros I. apply in_map_iff in I. destruct I as (y & E & I).
    assert (y = x) by (apply Inj; [now right|now left|exact E]). congruence.
  - apply IH. intros a b Ia Ib. apply Inj; now right.
Qed.

(** Relabelling loses no field of an upstream record: when the record's
    keys are distinct and none of them is already a label of the table, the
    result has one field per input field, in the same order, each with its
    value. *)
Theorem relabelling_keeps_every_field (table : list (string * string))
  (entry : dict) :
  In table label_tables ->
  NoDup (map fst entry) ->
  (forall k, In k (map fst entry) -> ~ In k (map snd table)) ->
  convert_keys_to_labels_with table entry = relabelled table entry /\
  List.length (convert_keys_to_labels_with table entry) = List.length entry /\
  map snd (convert_keys_to_labels_with table entry) = map snd entry.
Proof.
  intros I Hnd Hraw.
  assert (convert_keys_to_labels_with table entry = relabelled table entry) as E.
  { unfold convert_keys_to_labels_with, relabelled. apply dict_of_items_nodup.
    replace (map fst (map (fun kv : string * json =>
                             (label_of table (fst kv), snd kv)) entry))
      with (map (label_of table) (map fst entry))
      by (now rewrite !map_map).
    apply NoDup_map_injective; [exact Hnd|].
    intros x y Ix Iy. apply label_of_injective_on_raw_keys;
      [now apply label_tables_ok|now apply Hraw|now apply Hraw]. }
  rewrite E. unfold relabelled. split; [reflexivity|].
  split; [apply length_map|]. rewrite map_map. reflexivity.
Qed.

Lemma relabelling_keeps_every_field_witness :
  convert_keys_to_labels_with HistoricalDataController.json_to_label_map
    [("t", JStr "2023-11-14"); ("c", JInt 5); ("x", JNull)]
  = [("date", JStr "2023-11-14"); ("closing_price", JInt 5); ("x", JNull)].
Proof.
  apply (relabelling_keeps_every_field HistoricalDataController.json_to_label_map
           [("t", JStr "2023-11-14"); ("c", JInt 5); ("x", JNull)]).
  - simpl. tauto.
  - repeat constructor; simpl; intuition discriminate.
  - intros k Ik. simpl in Ik. simpl.
    destruct Ik as [<-|[<-|[<-|[]]]]; intuition discriminate.
Defined.

Lemma dict_get_app {V} (k : string) (l1 l2 : list (string * V)) :
  dict_get k (l1 ++ l2)%list
  = match dict_get k l1 with Some v => Some v | None => dict_get k l2 end.
Proof.
  induction l1 as [|[k' v'] l1 IH]; simpl; [reflexivity|].
  destruct (String.eqb k k'); [reflexivity|exact IH].
Qed.

Lemma dict_get_of_items_last {V} (k : string) (kvs : list (string * V)) :
  dict_get k (dict_of_items kvs) = dict_get k (rev kvs).
Proof.
  unfold dict_of_items.
  assert (forall acc,
            dict_get k (fold_left (fun d kv => dict_set (fst kv) (snd kv) d) kvs acc)
            = match dict_get k (rev kvs) with
              | Some v => Some v
              | None => dict_get k acc
              end) as G.
  { induction kvs as [|[k0 v0] kvs IH]; simpl; intros acc; [reflexivity|].
    rewrite IH, dict_get_app, dict_get_set. simpl.
    destruct (dict_get k (rev kvs)); [reflexivity|].
    destruct (String.eqb k k0); reflexivity. }
  rewrite G. destruct (dict_get k (rev kvs)); reflexivity.
Qed.

(** When several keys of a record are renamed to one label, the row keeps
    a single field under that label and it holds the value of the last
    such key: a lookup in the relabelled row is a lookup from the end of
    the renamed pairs. *)
Theorem relabelling_collision_keeps_the_last_value
  (table : list (string * string)) (entry : dict) (label : string) :
  dict_get label (convert_keys_to_labels_with table entry)
  = dict_get label (rev (relabelled table entry)) /\
  NoDup (map fst (convert_keys_to_labels_with table entry)).
Proof.
  split.
  - unfold convert_keys_to_labels_with. apply dict_get_of_items_last.
  - apply dict_of_items_keys_NoDup.
Qed.

(** The quote controller's two tables list the same keys with the same
    labels, so a quote is relabelled the same way for a stock and for an
    ETF. *)
Theorem quote_labels_do_not_depend_on_the_asset_type (entry : json) :
  QuoteDataController.convert_keys_to_labels entry "e"
  = QuoteDataController.convert_keys_to_labels entry "s" /\
  forall key,
    label_of QuoteDataController.etf_quote_data_keys_to_labels key
    = label_of QuoteDataController.stock_quote_data_keys_to_labels key.
Proof. split; reflexivity. Qed.

(** ** Invariants of the rate-limited client *)

Lemma gets_app (a b : list event) : gets (a ++ b) = (gets a ++ gets b)%list.
Proof. unfold gets. apply flat_map_app. Qed.

Lemma acquires_app (a b : list event) :
  acquires (a ++ b) = (acquires a + acquires b)%nat.
Proof. unfold acquires. now rewrite filter_app, length_app. Qed.

Lemma releases_app (a b : list event) :
  releases (a ++ b) = (releases a + releases b)%nat.
Proof. unfold releases. now rewrite filter_app, length_app. Qed.

Lemma request_with_limit_rec_frame (net : network) (budget : nat) (url : string) :
  forall (retries : Z) (w : world) (r : result json) (w' : world),
    request_with_limit_rec net budget url retries w = Done r w' ->
    (permits w' = permits w /\ session_open w' = true) /\
    exists evs n,
      did w w' evs /\
      gets evs = repeat url n /\ (1 <= n <= S budget)%nat /\
      requests w' = (requests w + n)%nat /\
      acquires evs = releases evs.
Proof.
  induction budget as [|b IH]; intros retries [s p n0 t] r w';
    cbn [request_with_limit_rec permits]; (destruct p as [|free]; [discriminate|]).
  - destruct (status _ =? 200).
    + intros E. inversion E; subst. split; [destruct s; split; reflexivity|].
      exists ([Acquire] ++ (if s then [] else [NewSession])
              ++ [Get url; ClearCookies; Release])%list, 1%nat.
      unfold did. destruct s; repeat split; try reflexivity; world_eq; lia.
    + destruct ((status _ =? 429) && (retries <? 1)).
      * destruct (retry_delay _); [discriminate|].
        intros E. inversion E; subst. split; [destruct s; split; reflexivity|].
        exists ([Acquire] ++ (if s then [] else [NewSession])
                ++ [Get url; Release])%list, 1%nat.
        unfold did. destruct s; repeat split; try reflexivity; world_eq; lia.
      * intros E. inversion E; subst. split; [destruct s; split; reflexivity|].
        exists ([Acquire] ++ (if s then [] else [NewSession])
                ++ [Get url; Release])%list, 1%nat.
        unfold did. destruct s; repeat split; try reflexivity; world_eq; lia.
  - destruct (status _ =? 200).
    + intros E. inversion E; subst. split; [destruct s; split; reflexivity|].
      exists ([Acquire] ++ (if s then [] else [NewSession])
              ++ [Get url; ClearCookies; Release])%list, 1%nat.
      unfold did. destruct s; repeat split; try reflexivity; world_eq; lia.
    + destruct ((status _ =? 429) && (retries <? 1)).
      * destruct (retry_delay _) as [seconds|].
        -- match goal with
           | |- context [request_with_limit_rec net b url ?r ?w3] =>
               destruct (request_with_limit_rec net b url r w3) as [r4 w4|w4] eqn:R;
               [|discriminate]
           end.
           apply IH in R. destruct R as ((P & So) & evs & n & D & G & Bn & Rq & AR).
           intros E. inversion E; subst. clear E.
           split.
           ++ cbn [release log set_permits permits session_open]. rewrite P, So.
              destruct s; split; reflexivity.
           ++ exists ([Acquire] ++ (if s then [] else [NewSession])
                      ++ [Get url; ClearCookies; CloseSession; Sleep seconds]
                      ++ evs ++ [Release])%list, (S n).
              unfold did in *. repeat split.
              ** cbn [release log set_permits trace]. rewrite D.
                 destruct s; world_eq; now rewrite <- !app_assoc.
              ** destruct s; cbn [app gets flat_map]; rewrite ?gets_app, G;
                   cbn [gets flat_map app]; rewrite app_nil_r;
                   reflexivity.
              ** lia.
              ** lia.
              ** cbn [release log set_permits requests]. rewrite Rq.
                 destruct s; cbn [log close_session count_request get_session
                                  set_permits set_session session_open requests];
                   lia.
              ** destruct s; rewrite !acquires_app, !releases_app;
                   unfold acquires, releases in *;
                   cbn [filter List.length]; lia.
        -- intros E. inversion E; subst. split; [destruct s; split; reflexivity|].
           exists ([Acquire] ++ (if s then [] else [NewSession])
                   ++ [Get url; Release])%list, 1%nat.
           unfold did. destruct s; repeat split; try reflexivity; world_eq; lia.
      * intros E. inversion E; subst. split; [destruct s; split; reflexivity|].
        exists ([Acquire] ++ (if s then [] else [NewSession])
                ++ [Get url; Release])%list, 1%nat.
        unfold did. destruct s; repeat split; try reflexivity; world_eq; lia.
Qed.

(** A call of [request_with_limit] that returns or raises gives back every
    permit it took and leaves a session open; it sent one or two GET
    requests, all of them to the URL it was given, and did nothing to the
    trace but append to it. *)
Theorem request_with_limit_gives_back_its_permits
  (net : network) (url : string) (w w' : world) (r : result json) :
  request_with_limit net url 0 w = Done r w' ->
  permits w' = permits w /\
  session_open w' = true /\
  exists evs n,
    did w w' evs /\
    gets evs = repeat url n /\ (1 <= n <= 2)%nat /\
    requests w' = (requests w + n)%nat /\
    acquires evs = releases evs.
Proof.
  unfold request_with_limit. change (Z.to_nat (1 - 0)) with 1%nat. intros E.
  apply request_with_limit_rec_frame in E.
  destruct E as ((P & So) & evs & n & H). split; [exact P|]. split; [exact So|].
  exists evs, n. exact H.
Qed.

Lemma request_with_limit_gives_back_its_permits_witness :
  exists w',
    request_with_limit (always (throttled (Some "7"))) "https://example.test/x" 0
      idle_world
    = Done (Raise (RequestError 429 "Too Many Requests")) w' /\
    permits w' = 2%nat /\ requests w' = 2%nat.
Proof.
  eexists. split; [vm_compute; reflexivity|].
  destruct (request_with_limit_gives_back_its_permits
              (always (throttled (Some "7"))) "https://example.test/x" idle_world
              _ _ eq_refl) as (P & _ & _).
  split; [exact P|reflexivity].
Defined.

(** A throttling response whose [Retry-After] value is not an integer (an
    HTTP date, for one) makes the call raise [ValueError]: there is no
    retry and no sleep, the session stays open, and the permit is given
    back. *)
Theorem unreadable_retry_after_raises_without_retry
  (net : network) (url : string) (w : world) :
  (1 <= permits w)%nat ->
  status (net (requests w) url) = 429 ->
  retry_delay (net (requests w) url) = None ->
  request_with_limit net url 0 w
  = Done (Raise ValueError)
      (mk_world true (permits w) (S (requests w))
         (trace w ++ [Acquire] ++ (if session_open w then [] else [NewSession])
                 ++ [Get url; Release])%list).
Proof.
  destruct w as [s p n t]. cbn [permits requests session_open trace].
  intros Hp H429 Hd. destruct p as [|free]; [lia|].
  unfold request_with_limit. change (Z.to_nat (1 - 0)) with 1%nat.
  assert (requests (get_session (log Acquire (set_permits free
                     (mk_world s (S free) n t)))) = n) as Rn
    by (destruct s; reflexivity).
  cbn [request_with_limit_rec permits]. rewrite Rn. status_case.
  change (0 <? 1) with true. cbn [andb]. rewrite Hd.
  f_equal. destruct s; world_eq.
Qed.

Lemma unreadable_retry_after_raises_without_retry_witness :
  request_with_limit
    (always (throttled (Some "Wed, 21 Oct 2015 07:28:00 GMT")))
    "https://example.test/x" 0 idle_world
  = Done (Raise ValueError)
      (mk_world true 2 1 [Acquire; NewSession; Get "https://example.test/x"; Release]).
Proof.
  apply (unreadable_retry_after_raises_without_retry
           (always (throttled (Some "Wed, 21 Oct 2015 07:28:00 GMT")))
           "https://example.test/x" idle_world).
  - simpl. lia.
  - reflexivity.
  - reflexivity.
Defined.

(** Closing is idempotent and harmless when nothing is open; asking twice
    for the session opens one session only; after a close the next request
    for the session opens a new one. *)
Theorem session_is_opened_once_and_closed_safely (w : world) :
  close_session (close_session w) = close_session w /\
  session_open (close_session w) = false /\
  (session_open w = false -> close_session w = w) /\
  get_session (get_session w) = get_session w /\
  session_open (get_session w) = true /\
  (session_open w = true -> get_session w = w) /\
  trace (get_session (close_session w))
  = (trace (close_session w) ++ [NewSession])%list.
Proof.
  destruct w as [[|] p n t]; repeat split; try reflexivity; discriminate.
Qed.

(** ** The fetchers *)

Lemma mem_not_empty (x : string) (xs : list string) :
  mem x xs = true -> mem "" xs = false -> is_empty_string x = false.
Proof.
  intros M N. unfold is_empty_string.
  destruct (String.eqb_spec x ""); [subst; congruence|reflexivity].
Qed.

Lemma validate_historical_parameters_complete (t a r p : string) :
  satisfies_rules (HistoricalCall t a r p) = true ->
  HistoricalDataController.validate_historical_parameters t a r p = Ok true.
Proof.
  cbn [satisfies_rules]. intros R.
  apply andb_prop in R. destruct R as [R Rp].
  apply andb_prop in R. destruct R as [R Rr].
  apply andb_prop in R. destruct R as [Rt Ra]. apply negb_true_iff in Rt.
  unfold HistoricalDataController.validate_historical_parameters,
    HistoricalDataController.valid_asset_types,
    HistoricalDataController.valid_ranges,
    HistoricalDataController.valid_periods.
  rewrite Rt, (mem_not_empty _ _ Ra eq_refl), (mem_not_empty _ _ Rr eq_refl),
    (mem_not_empty _ _ Rp eq_refl), Ra, Rr, Rp. reflexivity.
Qed.

Lemma validate_ts_parameters_complete (t a : string) :
  satisfies_rules (TimeSeriesCall t a) = true ->
  TimeSeriesDataController.validate_ts_parameters t a = Ok true.
Proof.
  cbn [satisfies_rules]. intros R.
  apply andb_prop in R. destruct R as [Rt Ra]. apply negb_true_iff in Rt.
  unfold TimeSeriesDataController.validate_ts_parameters,
    TimeSeriesDataController.valid_asset_types.
  rewrite Rt, (mem_not_empty _ _ Ra eq_refl), Ra. reflexivity.
Qed.

(** [validate_historical_parameters] and [validate_ts_parameters] return
    [True] exactly for a non-empty ticker with an asset type, range and
    period from the allowed lists; they never return [False], so for any
    other arguments they raise, and what they raise is a [BaseException]. *)
Theorem validation_accepts_exactly_the_allowed_values
  (ticker asset_type range period : string) :
  (HistoricalDataController.validate_historical_parameters ticker asset_type range period
   = Ok true
   <-> satisfies_rules (HistoricalCall ticker asset_type range period) = true) /\
  (satisfies_rules (HistoricalCall ticker asset_type range period) = false ->
   exists msg,
     HistoricalDataController.validate_historical_parameters ticker asset_type range
       period = Raise (BaseException msg)) /\
  (TimeSeriesDataController.validate_ts_parameters ticker asset_type = Ok true
   <-> satisfies_rules (TimeSeriesCall ticker asset_type) = true) /\
  (satisfies_rules (TimeSeriesCall ticker asset_type) = false ->
   exists msg,
     TimeSeriesDataController.validate_ts_parameters ticker asset_type
     = Raise (BaseException msg)).
Proof.
  split; [|split; [|split]].
  - split; [intros V; now apply validate_historical_parameters_ok in V|].
    apply validate_historical_parameters_complete.
  - intros R.
    destruct (HistoricalDataController.validate_historical_parameters ticker
                asset_type range period) as [b|e] eqn:V.
    + apply validate_historical_parameters_ok in V. destruct V; congruence.
    + revert V. unfold HistoricalDataController.validate_historical_parameters.
      repeat match goal with
             | |- (if ?c then _ else _) = _ -> _ => destruct c
             end; intros V; inversion V; eauto.
  - split; [intros V; now apply validate_ts_parameters_ok in V|].
    apply validate_ts_parameters_complete.
  - intros R.
    destruct (TimeSeriesDataController.validate_ts_parameters ticker asset_type)
      as [b|e] eqn:V.
    + apply validate_ts_parameters_ok in V. destruct V; congruence.
    + revert V. unfold TimeSeriesDataController.validate_ts_parameters.
      repeat match goal with
             | |- (if ?c then _ else _) = _ -> _ => destruct c
             end; intros V; inversion V; eauto.
Qed.

Lemma quote_returns (net : network) (t a : string) (w w' : world) (v : fetched) :
  QuoteDataController.get_asset_quote_data net t a w = Done (Ok v) w' ->
  exists d, v = Envelope "quote" d.
Proof.
  unfold QuoteDataController.get_asset_quote_data.
  destruct (negb (mem a QuoteDataController.valid_asset_types)); [discriminate|].
  intros E.
  apply bindM_Ok in E. destruct E as (url & w1 & _ & E).
  apply bindM_Ok in E. destruct E as (awaited & w2 & _ & E).
  destruct (negb (truthy awaited)).
  - inversion E. eauto.
  - apply bindM_Ok in E. destruct E as ([d|] & w3 & _ & E); inversion E. eauto.
Qed.

(** Whatever a fetcher returns is an envelope carrying that fetcher's own
    data type, with one exception: the income and ratios fetchers return
    [None], and only when the ticker is empty.  The time-series fetcher's
    [return None] and the historical fetcher's
    ['Invalid historical parameters'] branch are never taken. *)
Theorem fetchers_return_their_own_envelope
  (net : network) (pf : platform) (bs : network -> string -> M fetched)
  (call : fetch_call) (w w' : world) (v : fetched) :
  in_sources call ->
  perform net pf bs call w = Done (Ok v) w' ->
  (exists d, v = Envelope (data_type_of call) d) \/
  (v = ReturnedNone /\ answers_none call = true /\ satisfies_rules call = false).
Proof.
  intros S E. destruct call as [t a r p|t a|t a|t|t|t p|t|t];
    cbn [perform data_type_of answers_none satisfies_rules] in *;
    try contradiction.
  - left. now apply historical_returns in E.
  - left. now apply quote_returns in E.
  - left. now apply time_series_returns in E.
  - left. now apply cash_flow_returns in E.
  - destruct (is_empty_string t) eqn:Et.
    + right. unfold IncomeDataController.get_income_data in E. rewrite Et in E.
      inversion E. now repeat split.
    + left. now apply (income_returns _ _ _ _ _ _ Et) in E.
  - destruct (is_empty_string t) eqn:Et.
    + right. unfold RatiosDataController.get_ratios_data in E. rewrite Et in E.
      inversion E. now repeat split.
    + left. now apply (ratios_returns _ _ _ _ _ Et) in E.
  - left. now apply revenue_returns in E.
Qed.

Lemma fetchers_return_their_own_envelope_witness :
  exists d,
    (match perform sample_server utc sample_balance_sheet (QuoteCall "AAPL" "e")
             idle_world with
     | Done (Ok v) _ => v
     | _ => ReturnedNone
     end) = Envelope "quote" d.
Proof.
  destruct (fetchers_return_their_own_envelope sample_server utc
              sample_balance_sheet (QuoteCall "AAPL" "e") idle_world
              (match perform sample_server utc sample_balance_sheet
                       (QuoteCall "AAPL" "e") idle_world with
               | Done _ w' => w'
               | Blocked w' => w'
               end)
              (match perform sample_server utc sample_balance_sheet
                       (QuoteCall "AAPL" "e") idle_world with
               | Done (Ok v) _ => v
               | _ => ReturnedNone
               end) I) as [H|(_ & H & _)].
  - vm_compute. reflexivity.
  - exact H.
  - discriminate H.
Defined.

Lemma bindM_liftM {A B} (r : result A) (k : A -> M B) (w : world) :
  bindM (liftM r) k w = match r with Ok a => k a w | Raise e => Done (Raise e) w end.
Proof. unfold bindM, liftM. destruct r; reflexivity. Qed.

Lemma bindM_request_ok {B} (net : network) (url : string) (k : json -> M B)
  (w : world) (body : json) :
  (1 <= permits w)%nat ->
  status (net (requests w) url) = 200 ->
  json_body (net (requests w) url) = Ok body ->
  bindM (request_with_limit net url 0) k w = k body (after_one_get url w).
Proof.
  intros Hp Hs Hb. unfold bindM.
  rewrite request_with_limit_ok by assumption. now rewrite Hb.
Qed.

Lemma decoded_fetch_ok (net : network) (url data_type : string)
  (decode : json -> result json) (w : world) (body : json) :
  (1 <= permits w)%nat ->
  status (net (requests w) url) = 200 ->
  json_body (net (requests w) url) = Ok body ->
  (awaited <~ (response_json <~ request_with_limit net url 0 ;;
               if negb (truthy response_json) then raiseM TypeError
               else liftM (decode response_json)) ;;
   retM (Envelope data_type (VJson awaited))) w
  = Done (if truthy body
          then decoded <- decode body ;;
               Ok (Envelope data_type (VJson decoded))
          else Raise TypeError)
      (after_one_get url w).
Proof.
  intros Hp Hs Hb. unfold bindM at 1.
  rewrite (bindM_request_ok _ _ _ _ body) by assumption.
  destruct (truthy body); cbn [negb]; [|reflexivity].
  unfold liftM, retM. destruct (decode body); reflexivity.
Qed.

(** A statement fetcher called with a non-empty ticker on a 200 response
    sends one GET to its URL and hands the body to its decoder: the
    envelope's data is exactly what the decoder returns, an exception of
    the decoder comes out unchanged, and a body that is false (null, [{}],
    [[]], 0, ...) is refused with a [TypeError] before any decoding. *)
Theorem statement_fetch_is_the_decoder_on_the_body
  (net : network) (pf : platform) (bs : network -> string -> M fetched)
  (call : fetch_call) (decode : json -> result json) (w : world) (body : json) :
  statement_decoder call = Some decode ->
  satisfies_rules call = true ->
  (1 <= permits w)%nat ->
  status (net (requests w) (statement_url call)) = 200 ->
  json_body (net (requests w) (statement_url call)) = Ok body ->
  perform net pf bs call w
  = Done (if truthy body
          then decoded <- decode body ;;
               Ok (Envelope (data_type_of call) (VJson decoded))
          else Raise TypeError)
      (after_one_get (statement_url call) w).
Proof.
  intros D R Hp Hs Hb.
  destruct call as [t a r p|t a|t a|t|t|t p|t|t]; try discriminate D;
    injection D as <-; apply negb_true_iff in R;
    match goal with
    | |- context [after_one_get (statement_url ?c)] =>
        let url := eval cbv beta iota delta [statement_url] in (statement_url c) in
        assert (statement_url c = url) as E by reflexivity;
        rewrite E in *; clear E
    end;
    cbn [perform data_type_of].
  - unfold CashFlowDataController.get_cash_flow_data. rewrite R.
    exact (decoded_fetch_ok net _ _ _ w body Hp Hs Hb).
  - unfold IncomeDataController.get_income_data. rewrite R.
    exact (decoded_fetch_ok net _ _ _ w body Hp Hs Hb).
  - unfold RatiosDataController.get_ratios_data. rewrite R.
    exact (decoded_fetch_ok net _ _ _ w body Hp Hs Hb).
  - unfold RevenueDataController.get_revenue_data. rewrite R.
    exact (decoded_fetch_ok net _ _ _ w body Hp Hs Hb).
Qed.

Lemma statement_fetch_is_the_decoder_on_the_body_witness :
  CashFlowDataController.get_cash_flow_data (always (ok_response JNull)) "AAPL"
    idle_world
  = Done (Raise TypeError)
      (after_one_get (statement_url (CashFlowCall "AAPL")) idle_world).
Proof.
  apply (statement_fetch_is_the_decoder_on_the_body
           (always (ok_response JNull)) utc sample_balance_sheet
           (CashFlowCall "AAPL") CashFlowDataController.extract_financial_data
           idle_world JNull eq_refl eq_refl).
  - simpl. lia.
  - reflexivity.
  - reflexivity.
Defined.

(** ** What a fetcher does to the session manager *)

Lemma touches_nothing_retM {A} (a : A) : touches_nothing (retM a).
Proof. intros w r w' E. now inversion E. Qed.

Lemma touches_nothing_raiseM {A} (e : exn) : touches_nothing (@raiseM A e).
Proof. intros w r w' E. now inversion E. Qed.

Lemma touches_nothing_liftM {A} (x : result A) : touches_nothing (liftM x).
Proof. intros w r w' E. now inversion E. Qed.

Lemma touches_nothing_bindM {A B} (m : M A) (k : A -> M B) :
  touches_nothing m -> (forall a, touches_nothing (k a)) ->
  touches_nothing (bindM m k).
Proof.
  intros Hm Hk w r w' E. unfold bindM in E.
  destruct (m w) as [[a|e] w1|w1] eqn:Em; try discriminate.
  - apply Hm in Em. subst w1. now apply Hk in E.
  - inversion E; subst. now apply Hm in Em.
Qed.

Lemma at_most_one_call_request (net : network) (url : string) :
  at_most_one_call net (request_with_limit net url 0).
Proof. intros w r w' E. right. eauto. Qed.

Lemma at_most_one_call_none {A} (net : network) (m : M A) :
  touches_nothing m -> at_most_one_call net m.
Proof. intros H w r w' E. left. now apply H in E. Qed.

Lemma at_most_one_call_then {A B} (net : network) (m : M A) (k : A -> M B) :
  at_most_one_call net m -> (forall a, touches_nothing (k a)) ->
  at_most_one_call net (bindM m k).
Proof.
  intros Hm Hk w r w' E. unfold bindM in E.
  destruct (m w) as [[a|e] w1|w1] eqn:Em; try discriminate.
  - apply Hk in E. subst w'. now apply Hm in Em.
  - inversion E; subst. now apply Hm in Em.
Qed.

Lemma at_most_one_call_after {A B} (net : network) (m : M A) (k : A -> M B) :
  touches_nothing m -> (forall a, at_most_one_call net (k a)) ->
  at_most_one_call net (bindM m k).
Proof.
  intros Hm Hk w r w' E. unfold bindM in E.
  destruct (m w) as [[a|e] w1|w1] eqn:Em; try discriminate.
  - apply Hm in Em. subst w1. now apply Hk in E.
  - inversion E; subst. left. now apply Hm in Em.
Qed.

Ltac quiet :=
  repeat first
    [ apply touches_nothing_retM
    | apply touches_nothing_raiseM
    | apply touches_nothing_liftM
    | apply touches_nothing_bindM; [|intro]
    | match goal with
      | |- touches_nothing (if ?c then _ else _) => destruct c
      | |- touches_nothing (match ?x with Some _ => _ | None => _ end) => destruct x
      end ].

Ltac one_call :=
  repeat first
    [ apply at_most_one_call_request
    | apply at_most_one_call_after; [solve [quiet]|intro]
    | apply at_most_one_call_then; [|intro; solve [quiet]]
    | apply at_most_one_call_none; solve [quiet]
    | match goal with
      | |- at_most_one_call _ (if ?c then _ else _) => destruct c
      end ].

Lemma perform_at_most_one_call (net : network) (pf : platform)
  (bs : network -> string -> M fetched) (call : fetch_call) :
  in_sources call -> at_most_one_call net (perform net pf bs call).
Proof.
  destruct call; cbn [in_sources perform]; intros S; try contradiction.
  - unfold HistoricalDataController.get_asset_historical_data,
      HistoricalDataController.get_historical_data_from_url. one_call.
  - unfold QuoteDataController.get_asset_quote_data,
      QuoteDataController.get_quote_data_from_url. one_call.
  - unfold TimeSeriesDataController.get_asset_ts_data,
      TimeSeriesDataController.get_ts_data_from_url. one_call.
  - unfold CashFlowDataController.get_cash_flow_data,
      CashFlowDataController.fetch_cash_flow_data. one_call.
  - unfold IncomeDataController.get_income_data,
      IncomeDataController.fetch_income_data. one_call.
  - unfold RatiosDataController.get_ratios_data,
      RatiosDataController.fetch_ratios_data. one_call.
  - unfold RevenueDataController.get_revenue_data,
      RevenueDataController.fetch_revenue_data. one_call.
Qed.

(** Every fetcher of the sources, however it ends (a value, [None] or an
    exception), leaves the semaphore as it found it: either it did nothing
    at all to the session manager, or it made one call of
    [request_with_limit], which sent one or two GET requests, all to the
    same URL, released every permit it acquired and left a session open. *)
Theorem fetchers_give_back_their_permits
  (net : network) (pf : platform) (bs : network -> string -> M fetched)
  (call : fetch_call) (w w' : world) (r : result fetched) :
  in_sources call ->
  perform net pf bs call w = Done r w' ->
  w' = w \/
  (permits w' = permits w /\
   session_open w' = true /\
   exists evs url n,
     did w w' evs /\
     gets evs = repeat url n /\ (1 <= n <= 2)%nat /\
     requests w' = (requests w + n)%nat /\
     acquires evs = releases evs).
Proof.
  intros S E. apply (perform_at_most_one_call net pf bs call S) in E.
  destruct E as [E|(url & r0 & E)]; [now left|right].
  unfold request_with_limit in E. change (Z.to_nat (1 - 0)) with 1%nat in E.
  apply request_with_limit_rec_frame in E.
  destruct E as ((P & So) & evs & n & H). split; [exact P|]. split; [exact So|].
  exists evs, url, n. exact H.
Qed.

Lemma fetchers_give_back_their_permits_witness :
  permits (match perform (always (throttled (Some "1"))) utc sample_balance_sheet
                   (RevenueCall "AAPL") idle_world with
           | Done _ w' => w'
           | Blocked w' => w'
           end) = 2%nat.
Proof.
  destruct (fetchers_give_back_their_permits
              (always (throttled (Some "1"))) utc sample_balance_sheet
              (RevenueCall "AAPL") idle_world
              (match perform (always (throttled (Some "1"))) utc sample_balance_sheet
                       (RevenueCall "AAPL") idle_world with
               | Done _ w' => w'
               | Blocked w' => w'
               end)
              (Raise (RequestError 429 "Too Many Requests")) I)
    as [H|(H & _)].
  - vm_compute. reflexivity.
  - rewrite H. reflexivity.
  - exact H.
Defined.

(** ** The price fetchers on a filled payload *)

Lemma historical_rows (entries : list json) :
  mapM HistoricalDataController.convert_keys_to_labels entries
  = match as_dicts entries with
    | Some records =>
        Ok (map (labelled_record HistoricalDataController.json_to_label_map) records)
    | None => Raise AttributeError
    end.
Proof.
  induction entries as [|e entries IH]; [reflexivity|].
  cbn [mapM as_dicts].
  destruct e; try reflexivity.
  rewrite IH. unfold HistoricalDataController.convert_keys_to_labels.
  cbn [py_items bind]. destruct (as_dicts entries); reflexivity.
Qed.

(** On a 200 response whose body holds a non-empty list under
    ['data']['data'], the historical fetcher sends one GET and returns one
    row per upstream record, in the upstream order, each with its keys
    relabelled; if any entry of the list is not a dictionary the whole
    call raises [AttributeError] and no row is returned. *)
Theorem historical_fetch_relabels_every_record
  (net : network) (ticker asset_type range period url : string) (w : world)
  (top inner : dict) (entries : list json) :
  satisfies_rules (HistoricalCall ticker asset_type range period) = true ->
  HistoricalDataController.build_url_from_ticker ticker asset_type range period
  = Ok url ->
  (1 <= permits w)%nat ->
  status (net (requests w) url) = 200 ->
  json_body (net (requests w) url) = Ok (JObj top) ->
  dict_get "data" top = Some (JObj inner) ->
  dict_get "data" inner = Some (JArr entries) ->
  entries <> [] ->
  HistoricalDataController.get_asset_historical_data net ticker asset_type range
    period w
  = Done (match as_dicts entries with
          | Some records =>
              Ok (Envelope "historical"
                    (VJson (JArr (map (labelled_record
                                         HistoricalDataController.json_to_label_map)
                                      records))))
          | None => Raise AttributeError
          end)
      (after_one_get url w).
Proof.
  intros R U Hp Hs Hb Ht Hi Hne.
  unfold HistoricalDataController.get_asset_historical_data.
  rewrite (validate_historical_parameters_complete _ _ _ _ R), U.
  unfold HistoricalDataController.get_historical_data_from_url.
  unfold bindM at 1. unfold liftM at 1. cbn [negb].
  unfold bindM at 1. unfold liftM at 1.
  unfold bindM at 1.
  rewrite (bindM_request_ok _ _ _ _ (JObj top)) by assumption.
  assert (truthy (JObj inner) = true) as Ti
    by (destruct inner; [discriminate Hi|reflexivity]).
  assert (truthy (JArr entries) = true) as Te
    by (destruct entries; [contradiction|reflexivity]).
  unfold liftM at 1. cbn [py_get bind]. rewrite Ht. rewrite Ti. cbn [negb].
  cbn [py_get]. rewrite Hi, Te. cbn [negb].
  unfold bindM, liftM, retM. cbn [py_iter bind]. rewrite historical_rows.
  destruct (as_dicts entries); reflexivity.
Qed.

Lemma historical_fetch_relabels_every_record_witness :
  HistoricalDataController.get_asset_historical_data
    (always (ok_response
               (JObj [("data",
                       JObj [("data", JArr [JObj [("t", JStr "2024-01-02");
                                                  ("c", JInt 185)];
                                            JObj [("t", JStr "2024-01-03");
                                                  ("x", JNull)]])])])))
    "AAPL" "s" "1Y" "Daily" idle_world
  = Done (Ok (Envelope "historical"
                (VJson (JArr [JObj [("date", JStr "2024-01-02");
                                    ("closing_price", JInt 185)];
                              JObj [("date", JStr "2024-01-03");
                                    ("x", JNull)]]))))
      (after_one_get
         "https://api.stockanalysis.com/api/symbol/s/AAPL/history?range=1Y&period=Daily"
         idle_world).
Proof.
  apply (historical_fetch_relabels_every_record
           (always (ok_response
               (JObj [("data",
                       JObj [("data", JArr [JObj [("t", JStr "2024-01-02");
                                                  ("c", JInt 185)];
                                            JObj [("t", JStr "2024-01-03");
                                                  ("x", JNull)]])])])))
           "AAPL" "s" "1Y" "Daily"
           "https://api.stockanalysis.com/api/symbol/s/AAPL/history?range=1Y&period=Daily"
           idle_world
           [("data",
             JObj [("data", JArr [JObj [("t", JStr "2024-01-02"); ("c", JInt 185)];
                                  JObj [("t", JStr "2024-01-03"); ("x", JNull)]])])]
           [("data", JArr [JObj [("t", JStr "2024-01-02"); ("c", JInt 185)];
                           JObj [("t", JStr "2024-01-03"); ("x", JNull)]])]
           [JObj [("t", JStr "2024-01-02"); ("c", JInt 185)];
            JObj [("t", JStr "2024-01-03"); ("x", JNull)]]).
  - reflexivity.
  - vm_compute. reflexivity.
  - simpl. lia.
  - reflexivity.
  - reflexivity.
  - reflexivity.
  - reflexivity.
  - discriminate.
Defined.

(** On a 200 response whose body holds a true value under ['data'], the
    quote fetcher sends one GET and returns that dictionary with its keys
    relabelled, whichever of the two asset types was asked for; a true
    value that is not a dictionary (a list, a string, a number) makes the
    call raise [AttributeError]. *)
Theorem quote_fetch_relabels_the_quote
  (net : network) (ticker asset_type url : string) (w : world)
  (top : dict) (data : json) :
  satisfies_rules (QuoteCall ticker asset_type) = true ->
  QuoteDataController.build_url_from_ticker ticker asset_type = Ok url ->
  (1 <= permits w)%nat ->
  status (net (requests w) url) = 200 ->
  json_body (net (requests w) url) = Ok (JObj top) ->
  dict_get "data" top = Some data ->
  truthy data = true ->
  QuoteDataController.get_asset_quote_data net ticker asset_type w
  = Done (match data with
          | JObj d =>
              Ok (Envelope "quote"
                    (VJson (labelled_record
                              QuoteDataController.stock_quote_data_keys_to_labels d)))
          | _ => Raise AttributeError
          end)
      (after_one_get url w).
Proof.
  intros R U Hp Hs Hb Ht Td.
  cbn [satisfies_rules] in R. apply andb_prop in R. destruct R as [_ Ra].
  unfold QuoteDataController.get_asset_quote_data,
    QuoteDataController.valid_asset_types.
  rewrite Ra, U. cbn [negb].
  unfold QuoteDataController.get_quote_data_from_url.
  unfold bindM at 1. unfold liftM at 1.
  unfold bindM at 1.
  rewrite (bindM_request_ok _ _ _ _ (JObj top)) by assumption.
  unfold liftM at 1. cbn [py_get]. rewrite Ht, Td. cbn [negb].
  unfold bindM, liftM, retM, raiseM,
    QuoteDataController.convert_keys_to_labels, QuoteDataController.relabel.
  cbn [mem existsb] in Ra.
  destruct (String.eqb asset_type "e") eqn:Ee.
  - destruct data; reflexivity.
  - destruct (String.eqb asset_type "s") eqn:Es; [|discriminate Ra].
    destruct data; reflexivity.
Qed.

Lemma quote_fetch_relabels_the_quote_witness :
  QuoteDataController.get_asset_quote_data
    (always (ok_response (JObj [("data", JObj [("p", JInt 190); ("zz", JNull)])])))
    "VOO" "e" idle_world
  = Done (Ok (Envelope "quote"
                (VJson (JObj [("current_price", JInt 190); ("zz", JNull)]))))
      (after_one_get "https://api.stockanalysis.com/api/quotes/e/VOO" idle_world).
Proof.
  apply (quote_fetch_relabels_the_quote
           (always (ok_response
                      (JObj [("data", JObj [("p", JInt 190); ("zz", JNull)])])))
           "VOO" "e" "https://api.stockanalysis.com/api/quotes/e/VOO" idle_world
           [("data", JObj [("p", JInt 190); ("zz", JNull)])]
           (JObj [("p", JInt 190); ("zz", JNull)])).
  - reflexivity.
  - vm_compute. reflexivity.
  - simpl. lia.
  - reflexivity.
  - reflexivity.
  - reflexivity.
  - reflexivity.
Defined.

Lemma mapM_first_failure {A B} (f : A -> result B) (good : list A) (bad : A)
  (rest : list A) (e : exn) :
  (forall g, In g good -> exists b, f g = Ok b) ->
  f bad = Raise e ->
  mapM f (good ++ bad :: rest) = Raise e.
Proof.
  intros G Bad. induction good as [|g good IH]; cbn [app mapM].
  - now rewrite Bad.
  - destruct (G g (or_introl eq_refl)) as (b & ->). cbn [bind].
    rewrite IH; [reflexivity|]. intros x Hx. apply G. now right.
Qed.

(** On a 200 response whose body holds a non-empty list under ['data'],
    the time-series fetcher sends one GET and converts the entries in
    order.  If every entry converts, it returns one row per entry; if one
    does not (an entry that is not a pair, a timestamp that is not a
    number, ...), the call raises the exception of the first such entry
    and returns no row at all. *)
Theorem time_series_fetch_converts_every_entry_or_fails
  (net : network) (pf : platform) (ticker asset_type url : string) (w : world)
  (top : dict) (entries : list json) :
  satisfies_rules (TimeSeriesCall ticker asset_type) = true ->
  TimeSeriesDataController.build_url_from_ticker ticker asset_type = Ok url ->
  (1 <= permits w)%nat ->
  status (net (requests w) url) = 200 ->
  json_body (net (requests w) url) = Ok (JObj top) ->
  dict_get "data" top = Some (JArr entries) ->
  entries <> [] ->
  (forall rows,
     Forall2 (fun entry row =>
                TimeSeriesDataController.convert_time_series_entry pf entry = Ok row)
             entries rows ->
     TimeSeriesDataController.get_asset_ts_data net pf ticker asset_type w
     = Done (Ok (Envelope "time_series" (VJson (JArr rows)))) (after_one_get url w)) /\
  (forall good bad rest e,
     entries = (good ++ bad :: rest)%list ->
     (forall g, In g good ->
                exists row,
                  TimeSeriesDataController.convert_time_series_entry pf g = Ok row) ->
     TimeSeriesDataController.convert_time_series_entry pf bad = Raise e ->
     TimeSeriesDataController.get_asset_ts_data net pf ticker asset_type w
     = Done (Raise e) (after_one_get url w)).
Proof.
  intros R U Hp Hs Hb Ht Hne.
  assert (TimeSeriesDataController.get_asset_ts_data net pf ticker asset_type w
          = Done (rows <- mapM (TimeSeriesDataController.convert_time_series_entry pf)
                            entries ;;
                  Ok (Envelope "time_series" (VJson (JArr rows))))
              (after_one_get url w)) as E.
  { unfold TimeSeriesDataController.get_asset_ts_data.
    rewrite (validate_ts_parameters_complete _ _ R), U.
    unfold TimeSeriesDataController.get_ts_data_from_url.
    unfold bindM at 1. unfold liftM at 1. cbn [negb].
    unfold bindM at 1. unfold liftM at 1.
    unfold bindM at 1.
    rewrite (bindM_request_ok _ _ _ _ (JObj top)) by assumption.
    assert (truthy (JArr entries) = true) as Te
      by (destruct entries; [contradiction|reflexivity]).
    unfold liftM at 1. cbn [py_get]. rewrite Ht, Te. cbn [negb].
    unfold bindM, liftM, retM. cbn [py_iter bind].
    destruct (mapM _ entries); reflexivity. }
  split.
  - intros rows F. rewrite E, (mapM_Forall2 _ _ _ F). reflexivity.
  - intros good bad rest e -> G Bad.
    rewrite E, (mapM_first_failure _ _ _ _ _ G Bad). reflexivity.
Qed.

Lemma time_series_fetch_converts_every_entry_or_fails_witness :
  TimeSeriesDataController.get_asset_ts_data
    (always (ok_response
               (JObj [("data", JArr [JArr [JInt 1700000000000; JInt 123];
                                     JArr [JInt 1700086400000; JInt 124; JInt 0];
                                     JNull])])))
    utc "AAPL" "s" idle_world
  = Done (Raise ValueError)
      (after_one_get
         "https://api.stockanalysis.com/api/symbol/s/AAPL/history?type=chart"
         idle_world).
Proof.
  refine (proj2 (time_series_fetch_converts_every_entry_or_fails
                   (always (ok_response
                      (JObj [("data", JArr [JArr [JInt 1700000000000; JInt 123];
                                            JArr [JInt 1700086400000; JInt 124; JInt 0];
                                            JNull])])))
                   utc "AAPL" "s"
                   "https://api.stockanalysis.com/api/symbol/s/AAPL/history?type=chart"
                   idle_world
                   [("data", JArr [JArr [JInt 1700000000000; JInt 123];
                                   JArr [JInt 1700086400000; JInt 124; JInt 0];
                                   JNull])]
                   [JArr [JInt 1700000000000; JInt 123];
                    JArr [JInt 1700086400000; JInt 124; JInt 0];
                    JNull]
                   _ _ _ _ _ _ _)
                [JArr [JInt 1700000000000; JInt 123]]
                (JArr [JInt 1700086400000; JInt 124; JInt 0])
                [JNull] ValueError _ _ _).
  - reflexivity.
  - vm_compute. reflexivity.
  - simpl. lia.
  - reflexivity.
  - reflexivity.
  - reflexivity.
  - discriminate.
  - reflexivity.
  - intros g [<-|[]]. eexists. vm_compute. reflexivity.
  - reflexivity.
Defined.

(** ** The orchestrators on their fetchers' envelopes *)

(** When every coroutine of the fan-out returns an envelope of its own
    data type, the composed data holds each fetcher's payload, unchanged,
    under that data type, in the order of the fan-out: the data types are
    pairwise different, so no entry overwrites another. *)
Theorem composition_passes_each_payload_through
  (await_all : fetch_call -> completion) (ticker : string)
  (payload : fetch_call -> pyval) :
  ((forall call,
      In call (StockDataOrchestrator.fetch_set ticker) ->
      outcome (await_all call) = Ok (Envelope (data_type_of call) (payload call))) ->
   StockDataOrchestrator.compose_stock_data await_all ticker
   = Ok (mk_composed ticker "stock"
           (map (fun call => (data_type_of call, payload call))
                (StockDataOrchestrator.fetch_set ticker)))) /\
  ((forall call,
      In call (ETFDataOrchestrator.fetch_set ticker) ->
      outcome (await_all call) = Ok (Envelope (data_type_of call) (payload call))) ->
   ETFDataOrchestrator.compose_etf_data await_all ticker
   = Ok (mk_composed ticker "etf"
           (map (fun call => (data_type_of call, payload call))
                (ETFDataOrchestrator.fetch_set ticker)))).
Proof.
  split; intros H.
  - unfold StockDataOrchestrator.compose_stock_data, gather,
      StockDataOrchestrator.fetch_set in *.
    cbn [map earliest_failure mapM].
    rewrite !H by (cbn [In]; tauto).
    reflexivity.
  - unfold ETFDataOrchestrator.compose_etf_data, gather,
      ETFDataOrchestrator.fetch_set in *.
    cbn [map earliest_failure mapM].
    rewrite !H by (cbn [In]; tauto).
    reflexivity.
Qed.

Lemma composition_passes_each_payload_through_witness :
  ETFDataOrchestrator.compose_etf_data
    (fun call => mk_completion 0 (Ok (Envelope (data_type_of call) (VJson JNull))))
    "VOO"
  = Ok (mk_composed "VOO" "etf"
          [("historical", VJson JNull); ("time_series", VJson JNull)]).
Proof.
  apply (proj2 (composition_passes_each_payload_through
                  (fun call =>
                     mk_completion 0 (Ok (Envelope (data_type_of call) (VJson JNull))))
                  "VOO" (fun _ => VJson JNull))).
  intros call _. reflexivity.
Defined.

(** ** The URLs *)

(** [str.replace] of a placeholder passes over text that holds no opening
    brace. *)
Lemma replace_from_brace_free (name new text rest : string) :
  brace_free text = true ->
  replace_from (String "{" name) new 0 (text ++ rest)
  = text ++ replace_from (String "{" name) new 0 rest.
Proof.
  induction text as [|c text IH]; cbn [append brace_free]; intros B;
    [reflexivity|].
  apply andb_prop in B. destruct B as [Bc Bt].
  cbn [replace_from String.prefix].
  destruct (ascii_dec "{" c) as [<-|N]; [discriminate Bc|].
  now rewrite IH.
Qed.

Lemma append_empty_r (s : string) : s ++ "" = s.
Proof. induction s as [|c s IH]; cbn [append]; [reflexivity|now rewrite IH]. Qed.

Ltac literal_step old new lit f :=
  match goal with
  | |- context [replace_from old new 0 (lit ++ ?rest)] =>
      let rhs := eval cbv beta in (f (replace_from old new 0 rest)) in
      replace (replace_from old new 0 (lit ++ rest)) with rhs
        by (vm_compute; reflexivity)
  end.

Ltac as_scan old :=
  match goal with
  | |- context [replace old ?new ?s] =>
      change (replace old new s) with (replace_from old new 0 s)
  end.

Ltac closed_scan old new lit lit' :=
  replace (replace_from old new 0 lit) with lit' by (vm_compute; reflexivity).

Ltac variable_step := rewrite replace_from_brace_free by assumption.

Lemma time_series_url (t a : string) :
  brace_free t = true ->
  replace "{asset_type}" a
    (replace "{ticker}" t TimeSeriesDataController.base_url)
  = "https://api.stockanalysis.com/api/symbol/" ++ a ++ "/" ++ t
    ++ "/history?type=chart".
Proof.
  intros Bt.
  replace (replace "{ticker}" t TimeSeriesDataController.base_url)
    with ("https://api.stockanalysis.com/api/symbol/{asset_type}/"
          ++ t ++ "/history?type=chart") by (vm_compute; reflexivity).
  as_scan "{asset_type}".
  literal_step "{asset_type}" a
    "https://api.stockanalysis.com/api/symbol/{asset_type}/"
    (fun k => "https://api.stockanalysis.com/api/symbol/" ++ a ++ "/" ++ k).
  variable_step.
  closed_scan "{asset_type}" a "/history?type=chart" "/history?type=chart".
  reflexivity.
Qed.

Lemma quote_url (t a : string) :
  brace_free t = true ->
  replace "{asset_type}" a (replace "{ticker}" t QuoteDataController.base_url)
  = "https://api.stockanalysis.com/api/quotes/" ++ a ++ "/" ++ t.
Proof.
  intros Bt.
  replace (replace "{ticker}" t QuoteDataController.base_url)
    with ("https://api.stockanalysis.com/api/quotes/{asset_type}/" ++ t ++ "")
    by (vm_compute; reflexivity).
  as_scan "{asset_type}".
  literal_step "{asset_type}" a
    "https://api.stockanalysis.com/api/quotes/{asset_type}/"
    (fun k => "https://api.stockanalysis.com/api/quotes/" ++ a ++ "/" ++ k).
  variable_step.
  closed_scan "{asset_type}" a "" "".
  now rewrite append_empty_r.
Qed.

Lemma historical_url (t a r p : string) :
  brace_free t = true -> brace_free a = true -> brace_free r = true ->
  replace "{period}" p
    (replace "{range}" r
       (replace "{asset_type}" a
          (replace "{ticker}" t HistoricalDataController.base_url)))
  = "https://api.stockanalysis.com/api/symbol/" ++ a ++ "/" ++ t
    ++ "/history?range=" ++ r ++ "&period=" ++ p.
Proof.
  intros Bt Ba Br.
  replace (replace "{ticker}" t HistoricalDataController.base_url)
    with ("https://api.stockanalysis.com/api/symbol/{asset_type}/"
          ++ t ++ "/history?range={range}&period={period}")
    by (vm_compute; reflexivity).
  as_scan "{asset_type}".
  literal_step "{asset_type}" a
    "https://api.stockanalysis.com/api/symbol/{asset_type}/"
    (fun k => "https://api.stockanalysis.com/api/symbol/" ++ a ++ "/" ++ k).
  variable_step.
  closed_scan "{asset_type}" a "/history?range={range}&period={period}"
    "/history?range={range}&period={period}".
  as_scan "{range}".
  literal_step "{range}" r "https://api.stockanalysis.com/api/symbol/"
    (fun k => "https://api.stockanalysis.com/api/symbol/" ++ k).
  variable_step.
  literal_step "{range}" r "/" (fun k => "/" ++ k).
  variable_step.
  closed_scan "{range}" r "/history?range={range}&period={period}"
    ("/history?range=" ++ r ++ "&period={period}").
  as_scan "{period}".
  literal_step "{period}" p "https://api.stockanalysis.com/api/symbol/"
    (fun k => "https://api.stockanalysis.com/api/symbol/" ++ k).
  variable_step.
  literal_step "{period}" p "/" (fun k => "/" ++ k).
  variable_step.
  literal_step "{period}" p "/history?range=" (fun k => "/history?range=" ++ k).
  variable_step.
  closed_scan "{period}" p "&period={period}" ("&period=" ++ p ++ "").
  now rewrite append_empty_r.
Qed.


Lemma income_url (t p : string) :
  brace_free t = true ->
  IncomeDataController.build_income_url t p
  = "https://stockanalysis.com/stocks/" ++ t ++ "/financials/__data.json?p=" ++ p
    ++ "&x-sveltekit-trailing-slash=1&x-sveltekit-invalidated=001".
Proof.
  intros Bt. unfold IncomeDataController.build_income_url.
  replace (replace "{ticker}" t IncomeDataController.financial_income_base_url)
    with ("https://stockanalysis.com/stocks/" ++ t
          ++ "/financials/__data.json?p={period}&x-sveltekit-trailing-slash=1&x-sveltekit-invalidated=001")
    by (vm_compute; reflexivity).
  as_scan "{period}".
  literal_step "{period}" p "https://stockanalysis.com/stocks/"
    (fun k => "https://stockanalysis.com/stocks/" ++ k).
  variable_step.
  closed_scan "{period}" p
    "/financials/__data.json?p={period}&x-sveltekit-trailing-slash=1&x-sveltekit-invalidated=001"
    ("/financials/__data.json?p=" ++ p
     ++ "&x-sveltekit-trailing-slash=1&x-sveltekit-invalidated=001").
  reflexivity.
Qed.

(** The brace-free condition is needed: a ticker that spells a placeholder
    replaced later is itself replaced. *)
Lemma income_url_rescans_the_ticker (p : string) :
  IncomeDataController.build_income_url "{period}" p
  = "https://stockanalysis.com/stocks/" ++ p ++ "/financials/__data.json?p=" ++ p
    ++ "&x-sveltekit-trailing-slash=1&x-sveltekit-invalidated=001".
Proof. vm_compute. reflexivity. Qed.

(** Every URL builder returns its template with the arguments written in
    place of the placeholders, verbatim (nothing is escaped or
    normalised), provided the arguments are not empty and hold no opening
    brace: the replacements are made one after the other, each over the
    whole string, so the text of an earlier argument is scanned again. *)
Theorem urls_are_the_templates_filled_in (ticker asset_type range period : string) :
  is_empty_string ticker = false ->
  is_empty_string asset_type = false ->
  is_empty_string range = false ->
  is_empty_string period = false ->
  brace_free ticker = true ->
  brace_free asset_type = true ->
  brace_free range = true ->
  HistoricalDataController.build_url_from_ticker ticker asset_type range period
  = Ok ("https://api.stockanalysis.com/api/symbol/" ++ asset_type ++ "/" ++ ticker
        ++ "/history?range=" ++ range ++ "&period=" ++ period) /\
  TimeSeriesDataController.build_url_from_ticker ticker asset_type
  = Ok ("https://api.stockanalysis.com/api/symbol/" ++ asset_type ++ "/" ++ ticker
        ++ "/history?type=chart") /\
  QuoteDataController.build_url_from_ticker ticker asset_type
  = Ok ("https://api.stockanalysis.com/api/quotes/" ++ asset_type ++ "/" ++ ticker) /\
  IncomeDataController.build_income_url ticker period
  = "https://stockanalysis.com/stocks/" ++ ticker ++ "/financials/__data.json?p="
    ++ period ++ "&x-sveltekit-trailing-slash=1&x-sveltekit-invalidated=001" /\
  CashFlowDataController.build_cash_flow_url ticker
  = "https://stockanalysis.com/stocks/" ++ ticker
    ++ "/financials/cash-flow-statement/__data.json?x-sveltekit-trailing-slash=1&x-sveltekit-invalidated=001" /\
  RatiosDataController.build_ratios_url ticker
  = "https://stockanalysis.com/stocks/" ++ ticker
    ++ "/financials/ratios/__data.json?x-sveltekit-trailing-slash=1&x-sveltekit-invalidated=001" /\
  RevenueDataController.build_revenue_url ticker
  = "https://stockanalysis.com/stocks/" ++ ticker
    ++ "/revenue/__data.json?x-sveltekit-trailing-slash=1&x-sveltekit-invalidated=001".
Proof.
  intros Et Ea Er Ep Bt Ba Br.
  split; [|split; [|split; [|split; [|split; [|split]]]]].
  - unfold HistoricalDataController.build_url_from_ticker.
    rewrite Et, Ea, Er, Ep. cbn [orb]. f_equal.
    now apply historical_url.
  - unfold TimeSeriesDataController.build_url_from_ticker.
    rewrite Et, Ea. cbn [orb]. f_equal. now apply time_series_url.
  - unfold QuoteDataController.build_url_from_ticker.
    rewrite Et, Ea. cbn [orb]. f_equal. now apply quote_url.
  - now apply income_url.
  - vm_compute. reflexivity.
  - vm_compute. reflexivity.
  - vm_compute. reflexivity.
Qed.

Lemma urls_are_the_templates_filled_in_witness :
  HistoricalDataController.build_url_from_ticker "BRK.B" "s" "5Y" "Daily"
  = Ok "https://api.stockanalysis.com/api/symbol/s/BRK.B/history?range=5Y&period=Daily".
Proof.
  exact (proj1 (urls_are_the_templates_filled_in "BRK.B" "s" "5Y" "Daily"
                  eq_refl eq_refl eq_refl eq_refl eq_refl eq_refl eq_refl)).
Defined.

(** ** The retry and the semaphore *)

Lemma request_with_limit_retry_needs_a_second_permit_witness :
  exists w',
    request_with_limit (always (throttled (Some "3"))) "https://example.test/x" 0
      (mk_world false 1 0 [])
    = Blocked w'.
Proof.
  apply (request_with_limit_retry_needs_a_second_permit
           (always (throttled (Some "3"))) "https://example.test/x"
           (mk_world false 1 0 []) 3).
  - reflexivity.
  - reflexivity.
  - reflexivity.
Defined.

(** ** Valid parameters reach the network *)

Lemma calls_request (net : network) (url : string) :
  calls net url (request_with_limit net url 0).
Proof. intros w r w' E. eauto. Qed.

Lemma calls_then {A B} (net : network) (url : string) (m : M A) (k : A -> M B) :
  calls net url m -> (forall a, touches_nothing (k a)) ->
  calls net url (bindM m k).
Proof.
  intros Hm Hk w r w' E. unfold bindM in E.
  destruct (m w) as [[a|e] w1|w1] eqn:Em; try discriminate.
  - apply Hk in E. subst w'. now apply Hm in Em.
  - inversion E; subst. now apply Hm in Em.
Qed.

Ltac one_request :=
  repeat first
    [ apply calls_request
    | apply calls_then; [|intro; solve [quiet]] ].

Lemma perform_calls (net : network) (pf : platform)
  (bs : network -> string -> M fetched) (call : fetch_call) (url : string) :
  in_sources call ->
  satisfies_rules call = true ->
  url_of call = Ok url ->
  calls net url (perform net pf bs call).
Proof.
  intros S R U.
  destruct call as [t a r p|t a|t a|t|t|t p|t|t]; try contradiction;
    cbn [url_of] in U; cbn [perform].
  - intros w res w' E.
    unfold HistoricalDataController.get_asset_historical_data in E.
    rewrite (validate_historical_parameters_complete _ _ _ _ R), U in E.
    rewrite bindM_liftM in E. cbn [negb] in E. rewrite bindM_liftM in E.
    revert E. apply calls_then.
    + unfold HistoricalDataController.get_historical_data_from_url. one_request.
    + intro. quiet.
  - intros w res w' E.
    cbn [satisfies_rules] in R. apply andb_prop in R. destruct R as [_ Ra].
    unfold QuoteDataController.get_asset_quote_data,
      QuoteDataController.valid_asset_types in E.
    rewrite Ra, U in E. cbn [negb] in E. rewrite bindM_liftM in E.
    revert E. apply calls_then.
    + unfold QuoteDataController.get_quote_data_from_url. one_request.
    + intro. quiet.
  - intros w res w' E.
    unfold TimeSeriesDataController.get_asset_ts_data in E.
    rewrite (validate_ts_parameters_complete _ _ R), U in E.
    rewrite bindM_liftM in E. cbn [negb] in E. rewrite bindM_liftM in E.
    revert E. apply calls_then.
    + unfold TimeSeriesDataController.get_ts_data_from_url. one_request.
    + intro. quiet.
  - injection U as <-. cbn [satisfies_rules] in R. apply negb_true_iff in R.
    unfold CashFlowDataController.get_cash_flow_data,
      CashFlowDataController.fetch_cash_flow_data. rewrite R. one_request.
  - injection U as <-. cbn [satisfies_rules] in R. apply negb_true_iff in R.
    unfold IncomeDataController.get_income_data,
      IncomeDataController.fetch_income_data. rewrite R. one_request.
  - injection U as <-. cbn [satisfies_rules] in R. apply negb_true_iff in R.
    unfold RatiosDataController.get_ratios_data,
      RatiosDataController.fetch_ratios_data. rewrite R. one_request.
  - injection U as <-. cbn [satisfies_rules] in R. apply negb_true_iff in R.
    unfold RevenueDataController.get_revenue_data,
      RevenueDataController.fetch_revenue_data. rewrite R. one_request.
Qed.

(** A fetcher called with parameters that pass its checks always goes to
    the network: however it ends, it has sent at least one GET request,
    at most two, and every one of them to the URL its own builder
    returns. *)
Theorem valid_parameters_reach_the_network
  (net : network) (pf : platform) (bs : network -> string -> M fetched)
  (call : fetch_call) (url : string) (w w' : world) (r : result fetched) :
  in_sources call ->
  satisfies_rules call = true ->
  url_of call = Ok url ->
  perform net pf bs call w = Done r w' ->
  exists evs n,
    did w w' evs /\
    gets evs = repeat url n /\ (1 <= n <= 2)%nat /\
    requests w' = (requests w + n)%nat.
Proof.
  intros S R U E.
  apply (perform_calls net pf bs call url S R U) in E. destruct E as (r0 & E).
  unfold request_with_limit in E. change (Z.to_nat (1 - 0)) with 1%nat in E.
  apply request_with_limit_rec_frame in E.
  destruct E as (_ & evs & n & D & G & B & Q & _).
  exists evs, n. auto.
Qed.

Lemma valid_parameters_reach_the_network_witness :
  (1 <= requests (match perform (always (ok_response JNull)) utc sample_balance_sheet
                          (RatiosCall "AAPL") idle_world with
                  | Done _ w' => w'
                  | Blocked w' => w'
                  end))%nat.
Proof.
  destruct (valid_parameters_reach_the_network
              (always (ok_response JNull)) utc sample_balance_sheet
              (RatiosCall "AAPL")
              "https://stockanalysis.com/stocks/AAPL/financials/ratios/__data.json?x-sveltekit-trailing-slash=1&x-sveltekit-invalidated=001"
              idle_world
              (match perform (always (ok_response JNull)) utc sample_balance_sheet
                       (RatiosCall "AAPL") idle_world with
               | Done _ w' => w'
               | Blocked w' => w'
               end)
              (Raise TypeError) I eq_refl)
    as (evs & n & _ & _ & B & Q).
  - vm_compute. reflexivity.
  - vm_compute. reflexivity.
  - rewrite Q. lia.
Defined.
